(** * Postal code to temperature: orchestrator, provider clients and gateway

    A shallow embedding of the Go services of this repository:

    - [utils]: the validator [IsValidCEP], the converter
      [ConvertTemperatures] and the two provider clients [GetCityFromCEP]
      and [GetTemperature], each in its two generations (module [Plain]:
      the files without tracing; module [Traced]: the files that take a
      [context.Context] and a [trace.Span]);
    - [handler]: [TemperatureHandler], in the same two generations;
    - [service_input]: the gateway's [validateCEP] and [handleCEPRequest].

    Go strings are byte sequences: they are [string]s of [ascii] bytes.
    [float64] is Rocq's primitive binary64 [float], every operation rounded
    on its own.  A Go result pair [(v, err)] is a pair [(v, option error)],
    [None] being [nil].

    The Go standard library and OpenTelemetry are not part of the
    repository.  What the code needs of them is modelled in the modules
    [regexp], [strings], [fmt], [url], [json], [http] and [trace]; what
    depends on the outside world (environment, network, the JSON scanner and
    number parser, the JSON encoder) is a field of the record [World]. *)

From Stdlib Require Import String Ascii List ZArith Bool Lia.
From Stdlib Require Import PrimFloat DecimalString.
Import ListNotations.

Local Open Scope string_scope.
Set Warnings "-register-all,-inexact-float".

(** ** Errors *)

(** A Go [error] value, identified with the text [Error()] returns. *)
Inductive error : Type := errors_New (msg : string).

Definition Error (e : error) : string := let (msg) := e in msg.

(** The outcome of a library call that returns [(v, err)] with [v]
    meaningless when [err != nil]. *)
Inductive res (A : Type) : Type :=
| OK (a : A)
| Fail (e : error).
Arguments OK {A} a.
Arguments Fail {A} e.

(** ** Bytes *)

Definition byte_in (lo hi : nat) (c : ascii) : bool :=
  (lo <=? nat_of_ascii c)%nat && (nat_of_ascii c <=? hi)%nat.

Definition is_ascii_digit (c : ascii) : bool := byte_in 48 57 c.
Definition is_ascii_upper (c : ascii) : bool := byte_in 65 90 c.
Definition is_ascii_lower (c : ascii) : bool := byte_in 97 122 c.

(** ** Package regexp: the fragment of RE2 syntax the repository uses *)

Module regexp.

Inductive Regexp : Type :=
| EmptyMatch
| BeginText                      (* ^  with flag m off *)
| EndText                        (* $  with flag m off: end of text only *)
| PerlDigit                      (* \d  which is [0-9], ASCII only *)
| Literal (c : ascii)
| Concat (a b : Regexp)
| Repeat (a : Regexp) (n : nat). (* a{n} *)

(** *** Parsing a pattern *)

Inductive mode : Type :=
| Normal
| Escape                 (* just read a backslash *)
| Count (n : nat).       (* inside {n}, n the digits read so far *)

Definition is_meta (c : ascii) : bool :=
  existsb (Ascii.eqb c)
    ["."%char; "["%char; "]"%char; "("%char; ")"%char; "*"%char;
     "+"%char; "?"%char; "|"%char; "}"%char].

Definition digit_value (c : ascii) : nat := nat_of_ascii c - 48.

(** [acc] holds the atoms read so far, last one first. *)
Fixpoint parse_loop (s : string) (m : mode) (acc : list Regexp)
  : option (list Regexp) :=
  match s with
  | EmptyString => match m with Normal => Some acc | _ => None end
  | String c s' =>
      match m with
      | Escape =>
          if Ascii.eqb c "d" then parse_loop s' Normal (PerlDigit :: acc)
          else None
      | Count n =>
          if Ascii.eqb c "}" then
            match acc with
            | a :: acc' => parse_loop s' Normal (Repeat a n :: acc')
            | [] => None
            end
          else if is_ascii_digit c then
            parse_loop s' (Count (10 * n + digit_value c)) acc
          else None
      | Normal =>
          if Ascii.eqb c "^" then parse_loop s' Normal (BeginText :: acc)
          else if Ascii.eqb c "$" then parse_loop s' Normal (EndText :: acc)
          else if Ascii.eqb c "\" then parse_loop s' Escape acc
          else if Ascii.eqb c "{" then
            match acc with
            | _ :: _ => parse_loop s' (Count 0) acc
            | [] => None
            end
          else if is_meta c || negb (byte_in 0 127 c) then None
          else parse_loop s' Normal (Literal c :: acc)
      end
  end.

(** Patterns outside the fragment are reported as a compile error. *)
Definition Compile (pattern : string) : res Regexp :=
  match parse_loop pattern Normal [] with
  | Some acc => OK (fold_left (fun r a => Concat a r) acc EmptyMatch)
  | None => Fail (errors_New ("error parsing regexp: " ++ pattern))
  end.

(** *** Matching *)

(** [run re k bot s]: [re] matches a prefix of [s] and the continuation
    [k] accepts what follows.  [bot] tells whether the position is the
    beginning of the text.  [\d] consumes one rune; a rune that starts
    with a byte outside [0-9] is never a digit, so no multi-byte rune is
    ever consumed. *)
Fixpoint run (re : Regexp) (k : bool -> string -> bool)
         (bot : bool) (s : string) : bool :=
  match re with
  | EmptyMatch => k bot s
  | BeginText => bot && k bot s
  | EndText =>
      match s with
      | EmptyString => k bot s
      | String _ _ => false
      end
  | PerlDigit =>
      match s with
      | String c s' => is_ascii_digit c && k false s'
      | EmptyString => false
      end
  | Literal c0 =>
      match s with
      | String c s' => Ascii.eqb c c0 && k false s'
      | EmptyString => false
      end
  | Concat a b => run a (run b k) bot s
  | Repeat a n =>
      (fix rep (n : nat) (k : bool -> string -> bool) :=
         match n with
         | O => k
         | S n' => run a (rep n' k)
         end) n k bot s
  end.

(** An unanchored search: a match may start at any position. *)
Fixpoint search (re : Regexp) (bot : bool) (s : string) : bool :=
  run re (fun _ _ => true) bot s
  || match s with
     | EmptyString => false
     | String _ s' => search re false s'
     end.

Definition MatchString (pattern : string) (s : string)
  : bool * option error :=
  match Compile pattern with
  | Fail e => (false, Some e)
  | OK re => (search re true s, None)
  end.

End regexp.

(** ** Package strings *)

Module strings.

Fixpoint HasPrefix (s prefix : string) {struct prefix} : bool :=
  match prefix, s with
  | EmptyString, _ => true
  | String p prefix', String c s' => Ascii.eqb c p && HasPrefix s' prefix'
  | String _ _, EmptyString => false
  end.

(** [replace_from s old new skip]: [skip] bytes of a match of [old] are
    still to be dropped. *)
Fixpoint replace_from (s old new : string) (skip : nat) : string :=
  match s with
  | EmptyString => EmptyString
  | String c s' =>
      match skip with
      | S k => replace_from s' old new k
      | O =>
          if HasPrefix s old
          then new ++ replace_from s' old new (String.length old - 1)
          else String c (replace_from s' old new 0)
      end
  end.

(** [strings.ReplaceAll] for a non-empty [old]: the non-overlapping
    occurrences of [old], leftmost first, are replaced.  (With an empty
    [old] Go inserts [new] at every rune boundary; the repository never
    does that and the case is left as the identity.) *)
Definition ReplaceAll (s old new : string) : string :=
  match old with
  | EmptyString => s
  | String _ _ => replace_from s old new 0
  end.

End strings.

(** ** Package fmt: the verbs the repository uses *)

Module fmt.

Inductive arg : Type :=
| Str (s : string)
| Int (z : Z)
| Err (e : error).

Definition Itoa (z : Z) : string := NilZero.string_of_int (Z.to_int z).

(** [%s], [%d], [%w] and [%v] on an operand of the fitting type.  A verb
    that does not fit its operand, or has none, leaves a marker (Go prints
    a longer one; the repository has no such call). *)
Definition render (verb : ascii) (a : arg) : string :=
  match a with
  | Str s =>
      if Ascii.eqb verb "s" || Ascii.eqb verb "v" then s
      else "%!" ++ String verb "(BAD)"
  | Int z =>
      if Ascii.eqb verb "d" || Ascii.eqb verb "v" then Itoa z
      else "%!" ++ String verb "(BAD)"
  | Err e =>
      if Ascii.eqb verb "w" || Ascii.eqb verb "s" || Ascii.eqb verb "v"
      then Error e
      else "%!" ++ String verb "(BAD)"
  end.

Fixpoint Sprintf (format : string) (args : list arg) : string :=
  match format with
  | EmptyString => EmptyString
  | String c rest =>
      if Ascii.eqb c "%" then
        match rest with
        | EmptyString => "%!(NOVERB)"
        | String verb rest' =>
            if Ascii.eqb verb "%" then String "%" (Sprintf rest' args)
            else
              match args with
              | a :: args' => render verb a ++ Sprintf rest' args'
              | [] => "%!" ++ String verb "(MISSING)" ++ Sprintf rest' []
              end
        end
      else String c (Sprintf rest args)
  end.

Definition Errorf (format : string) (args : list arg) : error :=
  errors_New (Sprintf format args).

End fmt.

(** ** Package net/url *)

Module url.

Definition hex_digit (n : nat) : ascii :=
  match get n "0123456789ABCDEF" with
  | Some c => c
  | None => "0"%char
  end.

(** [shouldEscape] in mode [encodeQueryComponent]. *)
Definition shouldEscape (c : ascii) : bool :=
  negb (is_ascii_lower c || is_ascii_upper c || is_ascii_digit c
        || existsb (Ascii.eqb c) ["-"%char; "_"%char; "."%char; "~"%char]).

Fixpoint QueryEscape (s : string) : string :=
  match s with
  | EmptyString => EmptyString
  | String c s' =>
      if Ascii.eqb c " " then String "+" (QueryEscape s')
      else if shouldEscape c then
        String "%"
          (String (hex_digit (nat_of_ascii c / 16))
             (String (hex_digit (nat_of_ascii c mod 16)) (QueryEscape s')))
      else String c (QueryEscape s')
  end.

End url.

(** ** Package models (src/unnamed/part_002) *)

Module models.

Record Temperature : Type := {
  City : string;     (* json:"city" *)
  TempC : float;     (* json:"temp_C" *)
  TempF : float;     (* json:"temp_F" *)
  TempK : float      (* json:"temp_K" *)
}.

Record ViaCEP : Type := {
  Localidade : string;   (* json:"localidade" *)
  Erro : bool            (* json:"erro,omitempty" *)
}.

Module WeatherAPI.
Record Current_t : Type := {
  TempC : float        (* json:"temp_c" *)
}.
Record t : Type := {
  Current : Current_t  (* json:"current" *)
}.
End WeatherAPI.

(** The zero values of [var viaCEP models.ViaCEP] and
    [var weather models.WeatherAPI]. *)
Definition zero_ViaCEP : ViaCEP := {| Localidade := ""; Erro := false |}.
Definition zero_WeatherAPI : WeatherAPI.t :=
  {| WeatherAPI.Current := {| WeatherAPI.TempC := 0%float |} |}.

End models.

(** ** The payload types of the gateway (service-input/main.go) *)

Module gateway_types.

Record CEPRequest : Type := {
  CEP : string           (* json:"cep" *)
}.

Record ErrorResponse : Type := {
  Message : string       (* json:"message" *)
}.

End gateway_types.

(** ** Package encoding/json: decoding a JSON value into the structs *)

Module json.

(** A scanned JSON value: object members keep their order and their
    duplicates, strings are unquoted, numbers keep their literal. *)
Inductive Value : Type :=
| Null
| Bool (b : bool)
| Number (lit : string)
| Str (s : string)
| Array (xs : list Value)
| Object (members : list (string * Value)).

Definition kind (j : Value) : string :=
  match j with
  | Null => "null"
  | Bool _ => "bool"
  | Number lit => "number " ++ lit
  | Str _ => "string"
  | Array _ => "array"
  | Object _ => "object"
  end.

Definition lower (c : ascii) : ascii :=
  if is_ascii_upper c then ascii_of_nat (nat_of_ascii c + 32) else c.

Fixpoint lower_string (s : string) : string :=
  match s with
  | EmptyString => EmptyString
  | String c s' => String (lower c) (lower_string s')
  end.

(** A member [key] is stored in the field tagged [name] when the two are
    equal, or else equal up to case.  The tags decoded here are ASCII
    without [k] or [s], the only letters that non-ASCII runes fold to, so
    folding is ASCII case folding. *)
Definition fieldMatch (name key : string) : bool :=
  String.eqb key name || String.eqb (lower_string key) (lower_string name).

Definition UnmarshalTypeError (j : Value) (target : string) : error :=
  errors_New ("json: cannot unmarshal " ++ kind j ++ " into " ++ target).

(** The decoder keeps the first type error and goes on. *)
Definition saveError (e : error) (saved : option error) : option error :=
  match saved with
  | Some _ => saved
  | None => Some e
  end.

Section Structs.
Import models.

(** [strconv.ParseFloat(lit, 64)]. *)
Variable ParseFloat : string -> res float.

(** models.ViaCEP *)
Definition member_ViaCEP (st : ViaCEP * option error)
           (kv : string * Value) : ViaCEP * option error :=
  let '(v, saved) := st in
  let '(key, j) := kv in
  if fieldMatch "localidade" key then
    match j with
    | Str s => ({| Localidade := s; Erro := Erro v |}, saved)
    | Null => st
    | _ => (v, saveError
                 (UnmarshalTypeError j
                    "Go struct field ViaCEP.localidade of type string")
                 saved)
    end
  else if fieldMatch "erro" key then
    match j with
    | Bool b => ({| Localidade := Localidade v; Erro := b |}, saved)
    | Null => st
    | _ => (v, saveError
                 (UnmarshalTypeError j
                    "Go struct field ViaCEP.erro of type bool")
                 saved)
    end
  else st.

Definition Unmarshal_ViaCEP (j : Value) (v : ViaCEP)
  : ViaCEP * option error :=
  match j with
  | Null => (v, None)
  | Object members => fold_left member_ViaCEP members (v, None)
  | _ => (v, Some (UnmarshalTypeError j
                     "Go value of type models.ViaCEP"))
  end.

(** models.WeatherAPI *)
Definition member_Current (st : WeatherAPI.Current_t * option error)
           (kv : string * Value)
  : WeatherAPI.Current_t * option error :=
  let '(v, saved) := st in
  let '(key, j) := kv in
  if fieldMatch "temp_c" key then
    match j with
    | Number lit =>
        match ParseFloat lit with
        | OK f => ({| WeatherAPI.TempC := f |}, saved)
        | Fail _ =>
            (v, saveError
                  (UnmarshalTypeError j
                     "Go struct field WeatherAPI.current.temp_c of type float64")
                  saved)
        end
    | Null => st
    | _ => (v, saveError
                 (UnmarshalTypeError j
                    "Go struct field WeatherAPI.current.temp_c of type float64")
                 saved)
    end
  else st.

Definition member_WeatherAPI (st : WeatherAPI.t * option error)
           (kv : string * Value) : WeatherAPI.t * option error :=
  let '(v, saved) := st in
  let '(key, j) := kv in
  if fieldMatch "current" key then
    match j with
    | Object members =>
        let '(c, saved') :=
          fold_left member_Current members (WeatherAPI.Current v, saved) in
        ({| WeatherAPI.Current := c |}, saved')
    | Null => st
    | _ => (v, saveError
                 (UnmarshalTypeError j
                    "Go struct field WeatherAPI.current of type struct")
                 saved)
    end
  else st.

Definition Unmarshal_WeatherAPI (j : Value) (v : WeatherAPI.t)
  : WeatherAPI.t * option error :=
  match j with
  | Null => (v, None)
  | Object members => fold_left member_WeatherAPI members (v, None)
  | _ => (v, Some (UnmarshalTypeError j
                     "Go value of type models.WeatherAPI"))
  end.

(** CEPRequest of the gateway *)
Definition member_CEPRequest
           (st : gateway_types.CEPRequest * option error)
           (kv : string * Value)
  : gateway_types.CEPRequest * option error :=
  let '(v, saved) := st in
  let '(key, j) := kv in
  if fieldMatch "cep" key then
    match j with
    | Str s => ({| gateway_types.CEP := s |}, saved)
    | Null => st
    | _ => (v, saveError
                 (UnmarshalTypeError j
                    "Go struct field CEPRequest.cep of type string")
                 saved)
    end
  else st.

Definition Unmarshal_CEPRequest (j : Value)
           (v : gateway_types.CEPRequest)
  : gateway_types.CEPRequest * option error :=
  match j with
  | Null => (v, None)
  | Object members => fold_left member_CEPRequest members (v, None)
  | _ => (v, Some (UnmarshalTypeError j
                     "Go value of type main.CEPRequest"))
  end.

End Structs.

End json.

(** ** Package net/http *)

Module http.

Definition Header : Type := list (string * string).

(** [Header.Get]: the first value stored under the key. *)
Fixpoint Header_Get (h : Header) (key : string) : string :=
  match h with
  | [] => ""
  | (k, v) :: h' => if String.eqb k key then v else Header_Get h' key
  end.

Definition Header_Set (h : Header) (key value : string) : Header :=
  (key, value) :: filter (fun kv => negb (String.eqb (fst kv) key)) h.

(** An [io.Reader]: it delivers [data] and then ends, with [io.EOF] or
    with the read error [fault]. *)
Record Reader : Type := {
  data : string;
  fault : option error
}.

(** An outbound request. *)
Record Request : Type := {
  Method : string;
  URL : string;
  ReqHeader : Header
}.

Record Response : Type := {
  StatusCode : Z;
  Status : string;
  Body : Reader
}.

Definition StatusOK : Z := 200.
Definition StatusNotFound : Z := 404.
Definition StatusUnprocessableEntity : Z := 422.
Definition StatusInternalServerError : Z := 500.

(** What the client of a handler receives: the headers and the status as
    they were when the status line was written, and the bytes written.
    [WroteHeader = None]: no status line yet. *)
Record ResponseWriter : Type := {
  Pending : Header;            (* w.Header(), not sent yet *)
  Sent : Header;               (* the headers that went out *)
  WroteHeader : option Z;
  Written : string
}.

Definition NewRecorder : ResponseWriter :=
  {| Pending := []; Sent := []; WroteHeader := None; Written := "" |}.

Definition Header_Set_w (w : ResponseWriter) (key value : string)
  : ResponseWriter :=
  {| Pending := Header_Set (Pending w) key value;
     Sent := Sent w;
     WroteHeader := WroteHeader w;
     Written := Written w |}.

(** Only the first [WriteHeader] counts. *)
Definition WriteHeader (w : ResponseWriter) (statusCode : Z)
  : ResponseWriter :=
  match WroteHeader w with
  | Some _ => w
  | None =>
      {| Pending := Pending w;
         Sent := Pending w;
         WroteHeader := Some statusCode;
         Written := Written w |}
  end.

(** [Write] sends status 200 first when no status line was written. *)
Definition Write (w : ResponseWriter) (b : string) : ResponseWriter :=
  let w' := WriteHeader w StatusOK in
  {| Pending := Pending w';
     Sent := Sent w';
     WroteHeader := WroteHeader w';
     Written := Written w' ++ b |}.

(** The status the client sees ([httptest.ResponseRecorder.Code]). *)
Definition Code (w : ResponseWriter) : Z :=
  match WroteHeader w with
  | Some c => c
  | None => StatusOK
  end.

(** An inbound request, as far as the handlers look at it: its context,
    its query parameters in order, its headers and its body. *)
Record ServerRequest (Ctx : Type) : Type := {
  Context : Ctx;
  Query : list (string * string);
  InHeader : Header;
  InBody : Reader
}.
Arguments Context {Ctx} _.
Arguments Query {Ctx} _.
Arguments InHeader {Ctx} _.
Arguments InBody {Ctx} _.

(** [r.URL.Query().Get(key)]: the first value of the parameter, or the
    empty string. *)
Definition Query_Get {Ctx} (r : ServerRequest Ctx) (key : string)
  : string :=
  Header_Get (Query r) key.

End http.

(** ** The outside world *)

Record World : Type := {
  (** [os.Getenv] *)
  os_Getenv : string -> string;
  (** the error of [url.Parse] on a raw URL, [None] when it parses *)
  url_Parse_err : string -> option error;
  (** the round trip of [http.Client.Do]; the cancellation of the request
      context is part of it *)
  RoundTrip : http.Request -> res http.Response;
  (** the JSON scanner on a stream: the first value, or the syntax or read
      error *)
  json_readValue : http.Reader -> res json.Value;
  (** [strconv.ParseFloat(lit, 64)] *)
  strconv_ParseFloat : string -> res float;
  (** [json.Marshal] of the two structs that are written out *)
  json_Marshal_Temperature : models.Temperature -> res string;
  json_Marshal_ErrorResponse : gateway_types.ErrorResponse -> res string
}.

(** ** OpenTelemetry: tracer, spans and propagator *)

Module trace.

Inductive StatusCode : Type := Unset | Error | Ok.

Inductive KeyValue : Type :=
| String_ (key value : string)
| Int_ (key : string) (value : Z)
| Bool_ (key : string) (value : bool)
| Float64_ (key : string) (value : float).

(** An implementation of the tracing API.  [T] is the state of the backend,
    [Ctx] a [context.Context] as far as tracing sees it, [Span] a span
    handle.  No operation on a span returns anything to the caller. *)
Record Tracing : Type := {
  T : Type;
  Ctx : Type;
  Span : Type;
  Tracer_Start : Ctx -> string -> T -> (Ctx * Span) * T;
  SetAttributes : Span -> list KeyValue -> T -> T;
  RecordError : Span -> error -> T -> T;
  SetStatus : Span -> StatusCode -> string -> T -> T;
  Span_End : Span -> T -> T;
  Propagator_Extract : Ctx -> http.Header -> Ctx;
  Propagator_Inject : Ctx -> http.Header -> http.Header
}.

(** The no-op implementation: nothing is recorded. *)
Definition Noop : Tracing :=
  {| T := unit; Ctx := unit; Span := unit;
     Tracer_Start := fun _ _ t => ((tt, tt), t);
     SetAttributes := fun _ _ t => t;
     RecordError := fun _ _ t => t;
     SetStatus := fun _ _ _ t => t;
     Span_End := fun _ t => t;
     Propagator_Extract := fun c _ => c;
     Propagator_Inject := fun _ h => h |}.

(** A recording implementation: spans are numbered, every operation is
    appended to a journal. *)
Inductive Op : Type :=
| OpStart (id : nat) (name : string)
| OpAttrs (id : nat) (kvs : list KeyValue)
| OpError (id : nat) (e : error)
| OpStatus (id : nat) (c : StatusCode) (description : string)
| OpEnd (id : nat).

Definition Recording : Tracing :=
  {| T := list Op; Ctx := list nat; Span := nat;
     Tracer_Start := fun c name t =>
       let id := List.length t in ((id :: c, id), (t ++ [OpStart id name])%list);
     SetAttributes := fun s kvs t => (t ++ [OpAttrs s kvs])%list;
     RecordError := fun s e t => (t ++ [OpError s e])%list;
     SetStatus := fun s c d t => (t ++ [OpStatus s c d])%list;
     Span_End := fun s t => (t ++ [OpEnd s])%list;
     Propagator_Extract := fun c _ => c;
     Propagator_Inject := fun c h =>
       match c with
       | id :: _ => http.Header_Set h "traceparent" (fmt.Itoa (Z.of_nat id))
       | [] => h
       end |}.

End trace.

(** ** Effects *)

(** What a run leaves behind besides its result: the lines printed and the
    requests sent out, in order. *)
Inductive PrintArg : Type :=
| PStr (s : string)
| PErr (e : error)
| PFloat (f : float)
| PTemperature (t : models.Temperature).

Inductive Event : Type :=
| Println (args : list PrintArg)
| Outbound (req : http.Request)
| LogFatal (msg : string).

Record St (T : Type) : Type := {
  tracing : T;
  events : list Event
}.
Arguments tracing {T} _.
Arguments events {T} _.

Definition M (T A : Type) : Type := St T -> A * St T.

Definition ret {T A} (a : A) : M T A := fun st => (a, st).

Definition bind {T A B} (m : M T A) (f : A -> M T B) : M T B :=
  fun st => let (a, st') := m st in f a st'.

Declare Scope go_scope.
Delimit Scope go_scope with go.
Notation "x <- m ;; k" := (bind m (fun x => k))
  (at level 61, m at next level, right associativity) : go_scope.
Notation "' pat <- m ;; k" := (bind m (fun x => match x with pat => k end))
  (at level 61, pat pattern, m at next level, right associativity) : go_scope.
Notation "m ;; k" := (bind m (fun _ => k))
  (at level 61, right associativity) : go_scope.
Local Open Scope go_scope.

Definition emit {T} (e : Event) : M T unit :=
  fun st => (tt, {| tracing := tracing st; events := (events st ++ [e])%list |}).

Definition on_tracing {T} (f : T -> T) : M T unit :=
  fun st => (tt, {| tracing := f (tracing st); events := events st |}).

Definition fmt_Println {T} (args : list PrintArg) : M T unit :=
  emit (Println args).

(** [http.NewRequestWithContext(ctx, method, url, nil)] with a method the
    repository writes out and a context that is not nil: it fails exactly
    when the URL does not parse. *)
Definition http_NewRequest (w : World) (method url : string)
  : res http.Request :=
  match url_Parse_err w url with
  | Some e => Fail e
  | None => OK {| http.Method := method; http.URL := url;
                  http.ReqHeader := [] |}
  end.

(** [client.Do(req)] on a fresh [http.Client]. *)
Definition client_Do {T} (w : World) (req : http.Request)
  : M T (res http.Response) :=
  emit (Outbound req) ;; ret (RoundTrip w req).

(** [http.Get(url)]: build the request, then send it. *)
Definition http_Get {T} (w : World) (url : string)
  : M T (res http.Response) :=
  match http_NewRequest w "GET" url with
  | Fail e => ret (Fail e)
  | OK req => client_Do w req
  end.

(** The requests a run sent out. *)
Fixpoint outbound (evs : list Event) : list http.Request :=
  match evs with
  | [] => []
  | Outbound req :: evs' => req :: outbound evs'
  | Println _ :: evs' => outbound evs'
  | LogFatal _ :: evs' => outbound evs'
  end.

(** [json.NewDecoder(body).Decode(&v)] for the two provider payloads. *)
Definition Decode_ViaCEP (w : World) (body : http.Reader) (v : models.ViaCEP)
  : models.ViaCEP * option error :=
  match json_readValue w body with
  | Fail e => (v, Some e)
  | OK j => json.Unmarshal_ViaCEP j v
  end.

Definition Decode_WeatherAPI (w : World) (body : http.Reader)
           (v : models.WeatherAPI.t) : models.WeatherAPI.t * option error :=
  match json_readValue w body with
  | Fail e => (v, Some e)
  | OK j => json.Unmarshal_WeatherAPI (strconv_ParseFloat w) j v
  end.

(** ** Package utils of the orchestrator *)

Module utils.
Import models.

(** *** commons.go *)

Definition IsValidCEP (cep : string) : bool :=
  let (matched, _) := regexp.MatchString "^\d{8}$" cep in
  matched.

(** Go lets an implementation fuse [x*y + z] into one rounding; the model
    rounds the product and the sum each on its own. *)
Definition ConvertTemperatures (celsius : float) : Temperature :=
  let fahrenheit := (celsius * 1.8 + 32)%float in
  let kelvin := (celsius + 273)%float in
  {| City := "";
     TempC := celsius;
     TempF := fahrenheit;
     TempK := kelvin |}.

Definition UrlViaCEP : string := "https://viacep.com.br/ws/%s/json/".

Definition UrlWeatherAPI : string :=
  "https://api.weatherapi.com/v1/current.json?key=%s&q=%s".

(** *** The clients without tracing
    (service-orchestration/utils/viacep.go and the first weather client
    of src/unnamed/part_001) *)

Module Plain.
Section Clients.
Context {T : Type}.
Variable w : World.

Definition GetCityFromCEP (cep : string) : M T (string * option error) :=
  let url := fmt.Sprintf UrlViaCEP [fmt.Str cep] in
  r <- http_Get w url ;;
  match r with
  | Fail err => ret ("", Some err)
  | OK resp =>
      match Decode_ViaCEP w (http.Body resp) zero_ViaCEP with
      | (_, Some err) => ret ("", Some err)
      | (viaCEP, None) =>
          if Erro viaCEP || String.eqb (Localidade viaCEP) ""
          then ret ("", Some (fmt.Errorf "zipcode not found" []))
          else ret (Localidade viaCEP, None)
      end
  end.

Definition GetTemperature (city : string) : M T (float * option error) :=
  let apiKey := os_Getenv w "APIKeyWeather" in
  if String.eqb apiKey "" then
    ret (0%float, Some (fmt.Errorf "API key is not set" []))
  else
    let encodedCity := url.QueryEscape city in
    fmt_Println [PStr "Encoded city:"; PStr encodedCity] ;;
    let apiUrl :=
      fmt.Sprintf UrlWeatherAPI [fmt.Str apiKey; fmt.Str encodedCity] in
    r <- http_Get w apiUrl ;;
    match r with
    | Fail err => ret (0%float, Some err)
    | OK resp =>
        if negb (http.StatusCode resp =? http.StatusOK)%Z then
          ret (0%float,
               Some (fmt.Errorf "weather API returned status: %d"
                       [fmt.Int (http.StatusCode resp)]))
        else
          match Decode_WeatherAPI w (http.Body resp) zero_WeatherAPI with
          | (_, Some err) => ret (0%float, Some err)
          | (weather, None) =>
              ret (WeatherAPI.TempC (WeatherAPI.Current weather), None)
          end
    end.

End Clients.
End Plain.

(** *** The clients with tracing
    (src/unnamed/part_000 and the second weather client of
    src/unnamed/part_001) *)

Module Traced.
Section Clients.
Variable tr : trace.Tracing.
Variable w : World.

Let span_SetAttributes (span : trace.Span tr) kvs : M (trace.T tr) unit :=
  on_tracing (trace.SetAttributes tr span kvs).
Let span_RecordError (span : trace.Span tr) e : M (trace.T tr) unit :=
  on_tracing (trace.RecordError tr span e).
Let span_SetStatus (span : trace.Span tr) c d : M (trace.T tr) unit :=
  on_tracing (trace.SetStatus tr span c d).

Definition GetCityFromCEP (ctx : trace.Ctx tr) (cep : string)
           (span : trace.Span tr)
  : M (trace.T tr) (string * option error) :=
  let url := fmt.Sprintf UrlViaCEP [fmt.Str cep] in
  span_SetAttributes span
    [trace.String_ "viacep.url" url;
     trace.String_ "viacep.cep" cep;
     trace.String_ "http.method" "GET"] ;;
  match http_NewRequest w "GET" url with
  | Fail err =>
      span_RecordError span err ;;
      span_SetStatus span trace.Error "failed to create HTTP request" ;;
      ret ("", Some err)
  | OK req =>
      r <- client_Do w req ;;
      match r with
      | Fail err =>
          span_RecordError span err ;;
          span_SetStatus span trace.Error "HTTP request failed" ;;
          ret ("", Some err)
      | OK resp =>
          span_SetAttributes span
            [trace.Int_ "http.status_code" (http.StatusCode resp);
             trace.String_ "http.status" (http.Status resp)] ;;
          if negb (http.StatusCode resp =? http.StatusOK)%Z then
            let err := fmt.Errorf "ViaCEP API returned status: %d"
                         [fmt.Int (http.StatusCode resp)] in
            span_RecordError span err ;;
            span_SetStatus span trace.Error "unexpected HTTP status code" ;;
            ret ("", Some err)
          else
            match Decode_ViaCEP w (http.Body resp) zero_ViaCEP with
            | (_, Some err) =>
                span_RecordError span err ;;
                span_SetStatus span trace.Error
                  "failed to decode JSON response" ;;
                ret ("", Some err)
            | (viaCEP, None) =>
                span_SetAttributes span
                  [trace.String_ "viacep.localidade" (Localidade viaCEP);
                   trace.Bool_ "viacep.erro" (Erro viaCEP)] ;;
                if Erro viaCEP || String.eqb (Localidade viaCEP) "" then
                  let err := fmt.Errorf "can not find zipcode" [] in
                  span_RecordError span err ;;
                  span_SetStatus span trace.Error "can not find zipcodeP" ;;
                  ret ("", Some err)
                else
                  span_SetStatus span trace.Ok
                    "city successfully retrieved from ViaCEP" ;;
                  ret (Localidade viaCEP, None)
            end
      end
  end.

Definition GetTemperature (ctx : trace.Ctx tr) (city : string)
           (span : trace.Span tr)
  : M (trace.T tr) (float * option error) :=
  let apiKey := os_Getenv w "APIKeyWeather" in
  if String.eqb apiKey "" then
    span_RecordError span (fmt.Errorf "API key is not set" []) ;;
    span_SetStatus span trace.Error "API key is not set" ;;
    ret (0%float, Some (fmt.Errorf "API key is not set" []))
  else
    let encodedCity := url.QueryEscape city in
    fmt_Println [PStr "Encoded city:"; PStr encodedCity] ;;
    let apiUrl :=
      fmt.Sprintf UrlWeatherAPI [fmt.Str apiKey; fmt.Str encodedCity] in
    match http_NewRequest w "GET" apiUrl with
    | Fail err =>
        span_RecordError span
          (fmt.Errorf "failed to create request: %w" [fmt.Err err]) ;;
        span_SetStatus span trace.Error "failed to create request" ;;
        ret (0%float, Some err)
    | OK req =>
        r <- client_Do w req ;;
        match r with
        | Fail err =>
            span_RecordError span
              (fmt.Errorf "failed to get temperature: %w" [fmt.Err err]) ;;
            span_SetStatus span trace.Error "failed to get temperature" ;;
            ret (0%float, Some err)
        | OK resp =>
            if negb (http.StatusCode resp =? http.StatusOK)%Z then
              span_RecordError span
                (fmt.Errorf "weather API returned status: %d"
                   [fmt.Int (http.StatusCode resp)]) ;;
              span_SetStatus span trace.Error
                "weather API returned error status" ;;
              ret (0%float,
                   Some (fmt.Errorf "weather API returned status: %d"
                           [fmt.Int (http.StatusCode resp)]))
            else
              match Decode_WeatherAPI w (http.Body resp)
                      zero_WeatherAPI with
              | (_, Some err) =>
                  span_RecordError span
                    (fmt.Errorf "failed to decode response: %w"
                       [fmt.Err err]) ;;
                  span_SetStatus span trace.Error
                    "failed to decode response" ;;
                  ret (0%float, Some err)
              | (weather, None) =>
                  ret (WeatherAPI.TempC (WeatherAPI.Current weather), None)
              end
        end
    end.

End Clients.
End Traced.

End utils.

(** [json.NewEncoder(w).Encode(v)]: the encoding and a newline are written;
    when the encoder fails nothing is written, and both handlers drop the
    error. *)
Definition newline : string := String (ascii_of_nat 10) EmptyString.

Definition Encode_to (rw : http.ResponseWriter) (encoded : res string)
  : http.ResponseWriter :=
  match encoded with
  | OK s => http.Write rw (s ++ newline)
  | Fail _ => rw
  end.

(** ** Package handler of the orchestrator (src/unnamed/part_003) *)

Module handler.
Import models.

(** [temps.City = city] *)
Definition set_City (temps : Temperature) (city : string) : Temperature :=
  {| City := city;
     TempC := TempC temps;
     TempF := TempF temps;
     TempK := TempK temps |}.

(** *** The handler without tracing *)

Module Plain.
Section Handler.
Context {T Ctx : Type}.
Variable w : World.

Definition TemperatureHandler (rw : http.ResponseWriter)
           (r : http.ServerRequest Ctx) : M T http.ResponseWriter :=
  let cep := http.Query_Get r "cep" in
  fmt_Println [PStr "Received request for zipcode:"; PStr cep] ;;
  if negb (utils.IsValidCEP cep) then
    fmt_Println [PStr "Invalid zipcode:"; PStr cep] ;;
    let rw := http.WriteHeader rw http.StatusUnprocessableEntity in
    let rw := http.Write rw "invalid zipcode" in
    ret rw
  else
    fmt_Println [PStr "Valid zipcode:"; PStr cep] ;;
    '(city, err) <- utils.Plain.GetCityFromCEP w cep ;;
    match err with
    | Some err =>
        fmt_Println [PStr "Error getting city from zipcode:"; PErr err] ;;
        let rw := http.WriteHeader rw http.StatusNotFound in
        let rw := http.Write rw "can not find zipcode" in
        ret rw
    | None =>
        fmt_Println [PStr "City found:"; PStr city] ;;
        '(tempC, err) <- utils.Plain.GetTemperature w city ;;
        match err with
        | Some err =>
            fmt_Println [PStr "Error getting temperature:"; PErr err] ;;
            let rw := http.WriteHeader rw http.StatusInternalServerError in
            let rw := http.Write rw "error getting temperature" in
            ret rw
        | None =>
            fmt_Println [PStr "Temperature in Celsius:"; PFloat tempC] ;;
            let temps := utils.ConvertTemperatures tempC in
            let temps := set_City temps city in
            fmt_Println [PStr "Converted temperatures:";
                         PTemperature temps] ;;
            let rw := http.Header_Set_w rw "Content-Type"
                        "application/json" in
            let rw := http.WriteHeader rw http.StatusOK in
            let rw := Encode_to rw (json_Marshal_Temperature w temps) in
            ret rw
        end
    end.

End Handler.
End Plain.

(** *** The handler with tracing *)

Module Traced.
Section Handler.
Variable tr : trace.Tracing.
Variable w : World.

Let tracer_Start (ctx : trace.Ctx tr) (name : string)
  : M (trace.T tr) (trace.Ctx tr * trace.Span tr) :=
  fun st =>
    let (r, t) := trace.Tracer_Start tr ctx name (tracing st) in
    (r, {| tracing := t; events := events st |}).
Let span_SetAttributes (span : trace.Span tr) kvs : M (trace.T tr) unit :=
  on_tracing (trace.SetAttributes tr span kvs).
Let span_SetStatus (span : trace.Span tr) c d : M (trace.T tr) unit :=
  on_tracing (trace.SetStatus tr span c d).
Let span_End (span : trace.Span tr) : M (trace.T tr) unit :=
  on_tracing (trace.Span_End tr span).

Definition TemperatureHandler (rw : http.ResponseWriter)
           (r : http.ServerRequest (trace.Ctx tr))
  : M (trace.T tr) http.ResponseWriter :=
  let ctx := trace.Propagator_Extract tr (http.Context r)
               (http.InHeader r) in
  '(ctx, mainSpan) <- tracer_Start ctx "temperature-handler" ;;
  rw <-
    (let cep := http.Query_Get r "cep" in
     span_SetAttributes mainSpan [trace.String_ "cep" cep] ;;
     fmt_Println [PStr "Received request for zipcode:"; PStr cep] ;;
     if negb (utils.IsValidCEP cep) then
       fmt_Println [PStr "Invalid zipcode:"; PStr cep] ;;
       span_SetStatus mainSpan trace.Error "invalid zipcode" ;;
       span_SetAttributes mainSpan [trace.Bool_ "valid_cep" false] ;;
       let rw := http.WriteHeader rw http.StatusUnprocessableEntity in
       let rw := http.Write rw "invalid zipcode" in
       ret rw
     else
       fmt_Println [PStr "Valid zipcode:"; PStr cep] ;;
       span_SetAttributes mainSpan [trace.Bool_ "valid_cep" true] ;;
       '(ctx, spanCity) <- tracer_Start ctx "get-city-from-cep" ;;
       span_SetAttributes spanCity [trace.String_ "cep" cep] ;;
       '(city, err) <- utils.Traced.GetCityFromCEP tr w ctx cep spanCity ;;
       match err with
       | Some err =>
           fmt_Println [PStr "Error getting city from zipcode:";
                        PErr err] ;;
           span_SetStatus spanCity trace.Error "city not found" ;;
           span_End spanCity ;;
           span_SetStatus mainSpan trace.Error "can not find zipcode" ;;
           let rw := http.WriteHeader rw http.StatusNotFound in
           let rw := http.Write rw "can not find zipcode" in
           ret rw
       | None =>
           span_SetAttributes spanCity [trace.String_ "city" city] ;;
           span_SetStatus spanCity trace.Ok "city found successfully" ;;
           span_End spanCity ;;
           fmt_Println [PStr "City found:"; PStr city] ;;
           '(ctx, spanTemp) <-
             tracer_Start ctx "get-temperature-from-weather-api" ;;
           span_SetAttributes spanTemp [trace.String_ "city" city] ;;
           '(tempC, err) <-
             utils.Traced.GetTemperature tr w ctx city spanTemp ;;
           match err with
           | Some err =>
               fmt_Println [PStr "Error getting temperature:"; PErr err] ;;
               span_SetStatus spanTemp trace.Error
                 "failed to get temperature" ;;
               span_End spanTemp ;;
               span_SetStatus mainSpan trace.Error
                 "error getting temperature" ;;
               let rw := http.WriteHeader rw
                           http.StatusInternalServerError in
               let rw := http.Write rw "error getting temperature" in
               ret rw
           | None =>
               span_SetAttributes spanTemp
                 [trace.Float64_ "temperature_celsius" tempC] ;;
               span_SetStatus spanTemp trace.Ok
                 "temperature retrieved successfully" ;;
               span_End spanTemp ;;
               fmt_Println [PStr "Temperature in Celsius:"; PFloat tempC] ;;
               '(_, spanConvert) <- tracer_Start ctx "convert-temperatures" ;;
               let temps := utils.ConvertTemperatures tempC in
               let temps := set_City temps city in
               span_SetAttributes spanConvert
                 [trace.Float64_ "temp_celsius" (TempC temps);
                  trace.Float64_ "temp_fahrenheit" (TempF temps);
                  trace.Float64_ "temp_kelvin" (TempK temps)] ;;
               span_SetStatus spanConvert trace.Ok
                 "temperatures converted successfully" ;;
               span_End spanConvert ;;
               fmt_Println [PStr "Converted temperatures:";
                            PTemperature temps] ;;
               span_SetAttributes mainSpan
                 [trace.String_ "response_city" city] ;;
               span_SetStatus mainSpan trace.Ok
                 "request processed successfully" ;;
               let rw := http.Header_Set_w rw "Content-Type"
                           "application/json" in
               let rw := http.WriteHeader rw http.StatusOK in
               let rw := Encode_to rw (json_Marshal_Temperature w temps) in
               ret rw
           end
       end) ;;
  span_End mainSpan ;;      (* defer mainSpan.End() *)
  ret rw.

End Handler.
End Traced.

End handler.

(** ** The gateway (service-input/main.go) *)

Module service_input.
Import gateway_types.

Definition validateCEP (cep : string) : bool :=
  let cleanCEP := strings.ReplaceAll cep "-" "" in
  let cleanCEP := strings.ReplaceAll cleanCEP " " "" in
  let (matched, _) := regexp.MatchString "^\d{8}$" cleanCEP in
  matched.

(** How a call of the handler ends: it returns, or [log.Fatal] ends the
    process (no deferred call runs, no response is written). *)
Inductive Completion : Type :=
| Returned (rw : http.ResponseWriter)
| Exited.

Definition io_ReadAll (r : http.Reader) : string * option error :=
  (http.data r, http.fault r).

Definition Decode_CEPRequest (w : World) (body : http.Reader)
           (v : CEPRequest) : CEPRequest * option error :=
  match json_readValue w body with
  | Fail e => (v, Some e)
  | OK j => json.Unmarshal_CEPRequest j v
  end.

Section Handler.
Variable tr : trace.Tracing.
Variable w : World.

Let tracer_Start (ctx : trace.Ctx tr) (name : string)
  : M (trace.T tr) (trace.Ctx tr * trace.Span tr) :=
  fun st =>
    let (r, t) := trace.Tracer_Start tr ctx name (tracing st) in
    (r, {| tracing := t; events := events st |}).
Let span_SetAttributes (span : trace.Span tr) kvs : M (trace.T tr) unit :=
  on_tracing (trace.SetAttributes tr span kvs).
Let span_End (span : trace.Span tr) : M (trace.T tr) unit :=
  on_tracing (trace.Span_End tr span).

(** [return] with the deferred [End] calls, last deferred first. *)
Fixpoint returning (deferred : list (trace.Span tr))
         (rw : http.ResponseWriter) : M (trace.T tr) Completion :=
  match deferred with
  | [] => ret (Returned rw)
  | span :: deferred' => span_End span ;; returning deferred' rw
  end.

Definition handleCEPRequest (rw : http.ResponseWriter)
           (r : http.ServerRequest (trace.Ctx tr))
  : M (trace.T tr) Completion :=
  let ctx := http.Context r in
  '(ctx, span) <- tracer_Start ctx "validate-cep" ;;
  match Decode_CEPRequest w (http.InBody r) {| CEP := "" |} with
  | (_, Some err) =>
      span_SetAttributes span [trace.String_ "error" "invalid json"] ;;
      let rw := http.Header_Set_w rw "Content-Type" "application/json" in
      let rw := http.WriteHeader rw http.StatusUnprocessableEntity in
      let rw := Encode_to rw (json_Marshal_ErrorResponse w
                                {| Message := "invalid zipcode" |}) in
      returning [span] rw
  | (req, None) =>
      span_SetAttributes span [trace.String_ "cep" (CEP req)] ;;
      if negb (validateCEP (CEP req)) then
        span_SetAttributes span
          [trace.String_ "error" "invalid cep format"] ;;
        let rw := http.Header_Set_w rw "Content-Type" "application/json" in
        let rw := http.WriteHeader rw http.StatusUnprocessableEntity in
        let rw := Encode_to rw (json_Marshal_ErrorResponse w
                                  {| Message := "invalid zipcode" |}) in
        returning [span] rw
      else
        let cleanCEP := strings.ReplaceAll (CEP req) "-" "" in
        let cleanCEP := strings.ReplaceAll cleanCEP " " "" in
        span_End span ;;
        '(ctx, spanServiceB) <- tracer_Start ctx "call-service-b" ;;
        let serviceBURL := os_Getenv w "SERVICE_B_URL" in
        if String.eqb serviceBURL "" then
          emit (LogFatal "SERVICE_B_URL environment variable not set") ;;
          ret Exited
        else
          let url := fmt.Sprintf "%s/temperature?cep=%s"
                       [fmt.Str serviceBURL; fmt.Str cleanCEP] in
          span_SetAttributes spanServiceB
            [trace.String_ "service.b.url" url;
             trace.String_ "clean_cep" cleanCEP] ;;
          match http_NewRequest w "GET" url with
          | Fail err =>
              span_SetAttributes spanServiceB
                [trace.String_ "error" "failed to create request"] ;;
              let rw := http.Header_Set_w rw "Content-Type"
                          "application/json" in
              let rw := http.WriteHeader rw
                          http.StatusInternalServerError in
              let rw := Encode_to rw
                          (json_Marshal_ErrorResponse w
                             {| Message := "internal server error" |}) in
              returning [spanServiceB; span] rw
          | OK reqServiceB =>
              let reqServiceB :=
                {| http.Method := http.Method reqServiceB;
                   http.URL := http.URL reqServiceB;
                   http.ReqHeader :=
                     trace.Propagator_Inject tr ctx
                       (http.ReqHeader reqServiceB) |} in
              resp <- client_Do w reqServiceB ;;
              match resp with
              | Fail err =>
                  span_SetAttributes spanServiceB
                    [trace.String_ "error" "service b call failed"] ;;
                  let rw := http.Header_Set_w rw "Content-Type"
                              "application/json" in
                  let rw := http.WriteHeader rw
                              http.StatusInternalServerError in
                  let rw := Encode_to rw
                              (json_Marshal_ErrorResponse w
                                 {| Message := "internal server error" |}) in
                  returning [spanServiceB; span] rw
              | OK resp =>
                  span_SetAttributes spanServiceB
                    [trace.Int_ "http.status_code" (http.StatusCode resp)] ;;
                  match io_ReadAll (http.Body resp) with
                  | (_, Some err) =>
                      span_SetAttributes spanServiceB
                        [trace.String_ "error" "failed to read response"] ;;
                      let rw := http.Header_Set_w rw "Content-Type"
                                  "application/json" in
                      let rw := http.WriteHeader rw
                                  http.StatusInternalServerError in
                      let rw := Encode_to rw
                                  (json_Marshal_ErrorResponse w
                                     {| Message := "internal server error" |}) in
                      returning [spanServiceB; span] rw
                  | (body, None) =>
                      let rw := http.Header_Set_w rw "Content-Type"
                                  "application/json" in
                      let rw := http.WriteHeader rw (http.StatusCode resp) in
                      let rw := http.Write rw body in
                      returning [spanServiceB; span] rw
                  end
              end
          end
  end.

End Handler.

End service_input.

(** * Reading a run *)

(** A state with nothing printed and nothing sent yet. *)
Definition initial {T} (t : T) : St T := {| tracing := t; events := [] |}.

(** What the client of a handler observes: status and body. *)
Definition response_of (rw : http.ResponseWriter) : Z * string :=
  (http.Code rw, http.Written rw).

(** The requests a computation sends when it starts from [initial t]. *)
Definition sent_by {T A} (m : M T A) (t : T) : list http.Request :=
  outbound (events (snd (m (initial t)))).

(** The reference runs of the traced clients: the no-op tracer.  The value a
    traced client returns is the same under every tracer
    ([Traced_GetCityFromCEP_any_tracing], [Traced_GetTemperature_any_tracing]). *)
Definition geocode_traced (w : World) (cep : string) : string * option error :=
  fst (utils.Traced.GetCityFromCEP trace.Noop w tt cep tt (initial tt)).

Definition weather_traced (w : World) (city : string) : float * option error :=
  fst (utils.Traced.GetTemperature trace.Noop w tt city tt (initial tt)).

Definition geocode_plain (w : World) (cep : string) : string * option error :=
  fst (utils.Plain.GetCityFromCEP (T := unit) w cep (initial tt)).

Definition weather_plain (w : World) (city : string) : float * option error :=
  fst (utils.Plain.GetTemperature (T := unit) w city (initial tt)).

(** The events the clients leave, again read off the reference runs. *)
Definition geocode_traced_events (w : World) (cep : string) : list Event :=
  events (snd (utils.Traced.GetCityFromCEP trace.Noop w tt cep tt
                 (initial tt))).

Definition weather_traced_events (w : World) (city : string) : list Event :=
  events (snd (utils.Traced.GetTemperature trace.Noop w tt city tt
                 (initial tt))).

Definition geocode_plain_events (w : World) (cep : string) : list Event :=
  events (snd (utils.Plain.GetCityFromCEP (T := unit) w cep (initial tt))).

Definition weather_plain_events (w : World) (city : string) : list Event :=
  events (snd (utils.Plain.GetTemperature (T := unit) w city (initial tt))).

(** The two URLs and the two requests of the pipeline. *)
Definition viacep_url (cep : string) : string :=
  fmt.Sprintf utils.UrlViaCEP [fmt.Str cep].

Definition weather_url (w : World) (city : string) : string :=
  fmt.Sprintf utils.UrlWeatherAPI
    [fmt.Str (os_Getenv w "APIKeyWeather"); fmt.Str (url.QueryEscape city)].

Definition viacep_request (cep : string) : http.Request :=
  {| http.Method := "GET"; http.URL := viacep_url cep;
     http.ReqHeader := [] |}.

Definition weather_request (w : World) (city : string) : http.Request :=
  {| http.Method := "GET"; http.URL := weather_url w city;
     http.ReqHeader := [] |}.

(** The provider answered the GET for [url] with [resp]. *)
Definition answers (w : World) (url : string) (resp : http.Response) : Prop :=
  url_Parse_err w url = None /\
  RoundTrip w {| http.Method := "GET"; http.URL := url;
                 http.ReqHeader := [] |} = OK resp.

(** The inbound request of the reference runs: the query of a GET. *)
Definition query_request (q : list (string * string))
  : http.ServerRequest unit :=
  {| http.Context := tt; http.Query := q; http.InHeader := [];
     http.InBody := {| http.data := ""; http.fault := None |} |}.

(** A stage that sends at most the one request [req]. *)
Definition at_most (req : http.Request) (sent : list http.Request) : Prop :=
  sent = [] \/ sent = [req].

(** The URL the gateway forwards a postal code to. *)
Definition forward_url (w : World) (cep : string) : string :=
  fmt.Sprintf "%s/temperature?cep=%s"
    [fmt.Str (os_Getenv w "SERVICE_B_URL");
     fmt.Str (strings.ReplaceAll (strings.ReplaceAll cep "-" "") " " "")].

(** The three ways forwarding fails, [sent] being the requests of the run:
    the request cannot be built, the call fails, the body of the answer
    cannot be read. *)
Inductive forward_failure (w : World) (url : string)
          (sent : list http.Request) : Prop :=
| cannot_build (e : error) :
    url_Parse_err w url = Some e -> forward_failure w url sent
| cannot_send (req : http.Request) (e : error) :
    url_Parse_err w url = None -> sent = [req] ->
    RoundTrip w req = Fail e -> forward_failure w url sent
| cannot_read (req : http.Request) (resp : http.Response) (e : error) :
    url_Parse_err w url = None -> sent = [req] ->
    RoundTrip w req = OK resp -> http.fault (http.Body resp) = Some e ->
    forward_failure w url sent.

(** The compiled form of the postal code pattern. *)
Definition cep_regexp : regexp.Regexp :=
  regexp.Concat regexp.BeginText
    (regexp.Concat (regexp.Repeat regexp.PerlDigit 8)
       (regexp.Concat regexp.EndText regexp.EmptyMatch)).

(** * The words of the specification *)

(** Validator: exactly 8 ASCII decimal digits and nothing else. *)
Definition ascii_decimal_digit (c : ascii) : Prop :=
  (48 <= nat_of_ascii c <= 57)%nat.

Definition eight_ascii_digits (s : string) : Prop :=
  String.length s = 8%nat /\
  forall c, In c (list_ascii_of_string s) -> ascii_decimal_digit c.

(** A string with every occurrence of one byte removed. *)
Fixpoint without_byte (c : ascii) (s : string) : string :=
  match s with
  | EmptyString => EmptyString
  | String c' s' =>
      if Ascii.eqb c' c then without_byte c s'
      else String c' (without_byte c s')
  end.

(** Gateway: the postal code with all hyphen and space characters removed. *)
Fixpoint without_separators (s : string) : string :=
  match s with
  | EmptyString => EmptyString
  | String c s' =>
      if Ascii.eqb c "-" || Ascii.eqb c " " then without_separators s'
      else String c (without_separators s')
  end.

Definition separator_free (s : string) : Prop :=
  forall c, In c (list_ascii_of_string s) -> c <> "-"%char /\ c <> " "%char.

(** TemperatureReport: TempF = TempC x 1.8 + 32, TempK = TempC + 273. *)
Definition TemperatureReport (city : string) (celsius : float)
  : models.Temperature :=
  {| models.City := city;
     models.TempC := celsius;
     models.TempF := (celsius * 1.8 + 32)%float;
     models.TempK := (celsius + 273)%float |}.

(** The bytes [Encode] leaves in the body. *)
Definition encoded (e : res string) : string :=
  match e with
  | OK s => s ++ newline
  | Fail _ => ""
  end.

(** Orchestrator: the four classes of section 6, decided by the first stage
    that fails.  The error values are not looked at. *)
Definition four_classes (valid : string -> bool)
           (geocode : string -> string * option error)
           (weather : string -> float * option error)
           (encode : models.Temperature -> res string)
           (cep : string) : Z * string :=
  if negb (valid cep) then (422%Z, "invalid zipcode")
  else
    match geocode cep with
    | (_, Some _) => (404%Z, "can not find zipcode")
    | (city, None) =>
        match weather city with
        | (_, Some _) => (500%Z, "error getting temperature")
        | (celsius, None) =>
            (200%Z, encoded (encode (TemperatureReport city celsius)))
        end
    end.

(** Orchestrator: the requests of a fail-fast pipeline.  Nothing is sent for
    an invalid postal code, and the weather stage sends nothing when the
    geocode stage failed. *)
Definition fail_fast_requests (valid : string -> bool)
           (geocode : string -> string * option error)
           (geocode_sends weather_sends : string -> list http.Request)
           (cep : string) : list http.Request :=
  if negb (valid cep) then []
  else
    match geocode cep with
    | (_, Some _) => geocode_sends cep
    | (city, None) => (geocode_sends cep ++ weather_sends city)%list
    end.



(** * Test doubles *)

Definition quoted (s : string) : string :=
  String (ascii_of_nat 34) s ++ String (ascii_of_nat 34) EmptyString.

(** A world given by tables: the environment, the answer of the network by
    URL, the scanned value of a body by its text. *)
Definition table_world (env : list (string * string))
           (net : list (string * res http.Response))
           (scan : list (string * json.Value))
           (numbers : list (string * float))
           (reports : list (models.Temperature * string)) : World :=
  {| os_Getenv := fun name => http.Header_Get env name;
     url_Parse_err := fun _ => None;
     RoundTrip := fun req =>
       match find (fun kv => String.eqb (fst kv) (http.URL req)) net with
       | Some kv => snd kv
       | None => Fail (errors_New "dial tcp: no such host")
       end;
     json_readValue := fun r =>
       match http.fault r with
       | Some e => Fail e
       | None =>
           match find (fun kv => String.eqb (fst kv) (http.data r)) scan with
           | Some kv => OK (snd kv)
           | None => Fail (errors_New "invalid character")
           end
       end;
     strconv_ParseFloat := fun lit =>
       match find (fun kv => String.eqb (fst kv) lit) numbers with
       | Some kv => OK (snd kv)
       | None => Fail (errors_New "strconv.ParseFloat: invalid syntax")
       end;
     json_Marshal_Temperature := fun t =>
       match find (fun kv =>
                     String.eqb (models.City (fst kv)) (models.City t)
                     && PrimFloat.eqb (models.TempC (fst kv)) (models.TempC t))
                  reports with
       | Some kv => OK (snd kv)
       | None => Fail (errors_New "json: unsupported value")
       end;
     json_Marshal_ErrorResponse := fun e =>
       OK ("{" ++ quoted "message" ++ ":"
               ++ quoted (gateway_types.Message e) ++ "}") |}.

Definition body_of (text : string) : http.Reader :=
  {| http.data := text; http.fault := None |}.

Definition response (code : Z) (text : string) : res http.Response :=
  OK {| http.StatusCode := code; http.Status := fmt.Itoa code;
        http.Body := body_of text |}.

Definition get_request {Ctx} (ctx : Ctx) (cep : string)
  : http.ServerRequest Ctx :=
  {| http.Context := ctx; http.Query := [("cep", cep)];
     http.InHeader := []; http.InBody := body_of "" |}.

Definition post_request {Ctx} (ctx : Ctx) (text : string)
  : http.ServerRequest Ctx :=
  {| http.Context := ctx; http.Query := [];
     http.InHeader := []; http.InBody := body_of text |}.

(** The end-to-end example of the specification: postal code 01001000, city
    São Paulo, 25.5 degrees. *)
Definition sao_paulo_json : string :=
  "{" ++ quoted "localidade" ++ ": " ++ quoted "São Paulo" ++ "}".

Definition weather_25_5_json : string :=
  "{" ++ quoted "current" ++ ": {" ++ quoted "temp_c" ++ ": 25.5}}".

Definition report_25_5_json : string :=
  "{" ++ quoted "city" ++ ":" ++ quoted "São Paulo" ++ ","
      ++ quoted "temp_C" ++ ":25.5," ++ quoted "temp_F" ++ ":77.9,"
      ++ quoted "temp_K" ++ ":298.5}".

Definition scans : list (string * json.Value) :=
  [(sao_paulo_json, json.Object [("localidade", json.Str "São Paulo")]);
   (weather_25_5_json,
    json.Object [("current", json.Object [("temp_c", json.Number "25.5")])]);
   ("{" ++ quoted "erro" ++ ": true}", json.Object [("erro", json.Bool true)]);
   ("{" ++ quoted "localidade" ++ ": " ++ quoted "" ++ "}",
    json.Object [("localidade", json.Str "")]);
   ("{" ++ quoted "current" ++ ": {" ++ quoted "humidity" ++ ": 80}}",
    json.Object [("current", json.Object [("humidity", json.Number "80")])]);
   ("[]", json.Array []);
   ("{" ++ quoted "cep" ++ ": " ++ quoted "01001-000" ++ "}",
    json.Object [("cep", json.Str "01001-000")])].

Definition the_world (geo wea : res http.Response) : World :=
  table_world [("APIKeyWeather", "test-api-key");
               ("SERVICE_B_URL", "http://localhost:8081")]
    [("https://viacep.com.br/ws/01001000/json/", geo);
     ("https://api.weatherapi.com/v1/current.json?key=test-api-key&q=S%C3%A3o+Paulo",
      wea)]
    scans
    [("25.5", 25.5%float); ("80", 80%float)]
    [(TemperatureReport "São Paulo" 25.5, report_25_5_json)].

Definition erro_json : string := "{" ++ quoted "erro" ++ ": true}".

Definition empty_city_json : string :=
  "{" ++ quoted "localidade" ++ ": " ++ quoted "" ++ "}".


Definition cep_json : string :=
  "{" ++ quoted "cep" ++ ": " ++ quoted "01001-000" ++ "}".

Definition forwarded_url : string :=
  "http://localhost:8081/temperature?cep=01001000".

(** A world in which the orchestrator is down. *)
Definition gateway_world (orchestrator : res http.Response) : World :=
  table_world [("SERVICE_B_URL", "http://localhost:8081")]
    [(forwarded_url, orchestrator)] scans [] [].

Definition happy_world : World :=
  the_world (response 200 sao_paulo_json) (response 200 weather_25_5_json).

(** * The orchestrator behind the gateway *)

(** [strings.CutPrefix]: what follows the prefix, when it is one. *)
Fixpoint strip_prefix (p s : string) : option string :=
  match p with
  | EmptyString => Some s
  | String a p' =>
      match s with
      | String b s' => if Ascii.eqb a b then strip_prefix p' s' else None
      | EmptyString => None
      end
  end.

Fixpoint all_alnum (s : string) : bool :=
  match s with
  | EmptyString => true
  | String c s' =>
      (is_ascii_lower c || is_ascii_upper c || is_ascii_digit c)
      && all_alnum s'
  end.

(** The response a client receives from what a handler wrote. *)
Definition as_response (rw : http.ResponseWriter) : http.Response :=
  {| http.StatusCode := http.Code rw;
     http.Status := fmt.Itoa (http.Code rw);
     http.Body := {| http.data := http.Written rw; http.fault := None |} |}.

(** The network as the gateway sees it when the orchestrator, living in the
    world [w], listens at [base]: a request for
    [base/temperature?cep=<value>] is answered by [TemperatureHandler] on
    the query [cep=<value>].  A value of letters and digits is its own
    decoding; other values and other paths are not served by this model. *)
Definition orchestrator_at (base : string) (w : World) (rq : http.Request)
  : res http.Response :=
  match strip_prefix (base ++ "/temperature?cep=") (http.URL rq) with
  | Some cep =>
      if all_alnum cep then
        OK (as_response
              (fst (handler.Traced.TemperatureHandler trace.Noop w
                      http.NewRecorder (query_request [("cep", cep)])
                      (initial tt))))
      else Fail (errors_New "query outside the model")
  | None => Fail (errors_New "no route")
  end.

(** The world of a gateway in front of that orchestrator. *)
Definition gateway_in_front (base : string) (w : World) : World :=
  {| os_Getenv := fun name =>
       if String.eqb name "SERVICE_B_URL" then base else "";
     url_Parse_err := fun _ => None;
     RoundTrip := orchestrator_at base w;
     json_readValue := json_readValue w;
     strconv_ParseFloat := strconv_ParseFloat w;
     json_Marshal_Temperature := json_Marshal_Temperature w;
     json_Marshal_ErrorResponse := json_Marshal_ErrorResponse w |}.

(** * Reading the journal of the recording tracer *)

Definition op_span (o : trace.Op) : nat :=
  match o with
  | trace.OpStart id _ => id
  | trace.OpAttrs id _ => id
  | trace.OpError id _ => id
  | trace.OpStatus id _ _ => id
  | trace.OpEnd id => id
  end.

(** The spans started and the spans ended, in order. *)
Fixpoint started (j : list trace.Op) : list nat :=
  match j with
  | [] => []
  | trace.OpStart id _ :: j' => id :: started j'
  | _ :: j' => started j'
  end.

Fixpoint ended (j : list trace.Op) : list nat :=
  match j with
  | [] => []
  | trace.OpEnd id :: j' => id :: ended j'
  | _ :: j' => ended j'
  end.

(** The statuses set on the span [s] and the errors recorded on it. *)
Fixpoint statuses (s : nat) (j : list trace.Op)
  : list (trace.StatusCode * string) :=
  match j with
  | [] => []
  | trace.OpStatus id c d :: j' =>
      if Nat.eqb id s then (c, d) :: statuses s j' else statuses s j'
  | _ :: j' => statuses s j'
  end.

Fixpoint recorded (s : nat) (j : list trace.Op) : list error :=
  match j with
  | [] => []
  | trace.OpError id e :: j' =>
      if Nat.eqb id s then e :: recorded s j' else recorded s j'
  | _ :: j' => recorded s j'
  end.

(** What the traced clients append to the journal for the span [s]. *)
Definition geocode_ops (w : World) (cep : string) (s : nat) : list trace.Op :=
  tracing (snd (utils.Traced.GetCityFromCEP trace.Recording w [] cep s
                  (initial []))).

Definition weather_ops (w : World) (city : string) (s : nat)
  : list trace.Op :=
  tracing (snd (utils.Traced.GetTemperature trace.Recording w [] city s
                  (initial []))).

(** * The testable doubles of the clients
    (service-orchestration/utils/viacep_test.go and weather_test.go) *)

Module utils_test.
Import models.

(** [HTTPGetter] and [HTTPClientInterface]: anything with a [Get]. *)
Record HTTPGetter (T : Type) : Type := {
  Get : string -> M T (res http.Response)
}.
Arguments Get {T} _ _.

(** [http.DefaultClient], whose [Get] is what [http.Get] calls. *)
Definition DefaultClient {T} (w : World) : HTTPGetter T :=
  {| Get := http_Get w |}.

Section Doubles.
Context {T : Type}.
Variable w : World.

Definition GetCityFromCEPWithClient (cep : string) (client : HTTPGetter T)
  : M T (string * option error) :=
  let url := fmt.Sprintf utils.UrlViaCEP [fmt.Str cep] in
  r <- Get client url ;;
  match r with
  | Fail err => ret ("", Some err)
  | OK resp =>
      match Decode_ViaCEP w (http.Body resp) zero_ViaCEP with
      | (_, Some err) => ret ("", Some err)
      | (viaCEP, None) =>
          if Erro viaCEP || String.eqb (Localidade viaCEP) ""
          then ret ("", Some (fmt.Errorf "zipcode not found" []))
          else ret (Localidade viaCEP, None)
      end
  end.

Definition GetTemperatureWithClient (city : string) (client : HTTPGetter T)
  : M T (float * option error) :=
  let apiKey := os_Getenv w "APIKeyWeather" in
  if String.eqb apiKey "" then
    ret (0%float, Some (fmt.Errorf "API key is not set" []))
  else
    let apiUrl :=
      fmt.Sprintf "https://api.weatherapi.com/v1/current.json?key=%s&q=%s"
        [fmt.Str apiKey; fmt.Str city] in
    r <- Get client apiUrl ;;
    match r with
    | Fail err => ret (0%float, Some err)
    | OK resp =>
        if negb (http.StatusCode resp =? http.StatusOK)%Z then
          ret (0%float,
               Some (fmt.Errorf "weather API returned status: %d"
                       [fmt.Int (http.StatusCode resp)]))
        else
          match Decode_WeatherAPI w (http.Body resp) zero_WeatherAPI with
          | (_, Some err) => ret (0%float, Some err)
          | (weather, None) =>
              ret (WeatherAPI.TempC (WeatherAPI.Current weather), None)
          end
    end.

End Doubles.
End utils_test.

(** The URL the double of the weather client asks for: the city as given. *)
Definition weather_url_raw (w : World) (city : string) : string :=
  fmt.Sprintf utils.UrlWeatherAPI
    [fmt.Str (os_Getenv w "APIKeyWeather"); fmt.Str city].

(** * The handler with injected dependencies
    (the test file of src/unnamed/part_003) *)

Module handler_test.
Import models.

(** A field that was not set is [nil]; calling it panics. *)
Record TemperatureHandlerWithDeps (T : Type) : Type := {
  CEPValidator : option (string -> M T bool);
  ViaCEPClient : option (string -> M T (string * option error));
  WeatherAPIClient : option (string -> M T (float * option error));
  TempConverter : option (float -> M T Temperature)
}.
Arguments CEPValidator {T} _.
Arguments ViaCEPClient {T} _.
Arguments WeatherAPIClient {T} _.
Arguments TempConverter {T} _.

Inductive Completion : Type :=
| Returned (rw : http.ResponseWriter)
| Panicked.

Section Handler.
Context {T Ctx : Type}.
Variable w : World.

Definition ServeHTTP (h : TemperatureHandlerWithDeps T)
           (rw : http.ResponseWriter) (r : http.ServerRequest Ctx)
  : M T Completion :=
  let cep := http.Query_Get r "cep" in
  match CEPValidator h with
  | None => ret Panicked
  | Some validator =>
      valid <- validator cep ;;
      if negb valid then
        let rw := http.WriteHeader rw http.StatusUnprocessableEntity in
        let rw := http.Write rw "invalid zipcode" in
        ret (Returned rw)
      else
        match ViaCEPClient h with
        | None => ret Panicked
        | Some viaCEP =>
            '(city, err) <- viaCEP cep ;;
            match err with
            | Some _ =>
                let rw := http.WriteHeader rw http.StatusNotFound in
                let rw := http.Write rw "can not find zipcode" in
                ret (Returned rw)
            | None =>
                match WeatherAPIClient h with
                | None => ret Panicked
                | Some weather =>
                    '(tempC, err) <- weather city ;;
                    match err with
                    | Some _ =>
                        let rw := http.WriteHeader rw
                                    http.StatusInternalServerError in
                        let rw := http.Write rw
                                    "error getting temperature" in
                        ret (Returned rw)
                    | None =>
                        match TempConverter h with
                        | None => ret Panicked
                        | Some convert =>
                            temps <- convert tempC ;;
                            let rw := http.Header_Set_w rw "Content-Type"
                                        "application/json" in
                            let rw := http.WriteHeader rw http.StatusOK in
                            let rw := Encode_to rw
                                        (json_Marshal_Temperature w temps) in
                            ret (Returned rw)
                        end
                    end
                end
            end
        end
  end.

End Handler.
End handler_test.

(** The dependencies of the handler of production, injected. *)
Definition production_deps {T} (w : World)
  : handler_test.TemperatureHandlerWithDeps T :=
  {| handler_test.CEPValidator := Some (fun cep => ret (utils.IsValidCEP cep));
     handler_test.ViaCEPClient := Some (utils.Plain.GetCityFromCEP w);
     handler_test.WeatherAPIClient := Some (utils.Plain.GetTemperature w);
     handler_test.TempConverter :=
       Some (fun celsius => ret (utils.ConvertTemperatures celsius)) |}.

(** * Proof tools *)

Ltac run_monad :=
  unfold http_Get; unfold client_Do, fmt_Println;
  unfold emit, on_tracing, bind, ret; cbn beta iota zeta.

(** Case analysis on an innermost scrutinee of the goal. *)
Ltac break_match :=
  match goal with
  | |- context [match ?x with _ => _ end] =>
      lazymatch x with
      | context [match _ with _ => _ end] => fail
      | _ => idtac
      end;
      first [ is_var x; destruct x | let E := fresh "E" in destruct x eqn:E ]
  end.

Ltac run_cases :=
  run_monad;
  repeat (break_match; run_monad; cbn [fst snd events tracing initial]).

(** * The validator (commons.go) *)

Lemma is_ascii_digit_spec c :
  is_ascii_digit c = true <-> ascii_decimal_digit c.
Proof.
  unfold is_ascii_digit, byte_in, ascii_decimal_digit.
  rewrite andb_true_iff, !Nat.leb_le. tauto.
Qed.

Lemma run_Repeat_S a n k bot s :
  regexp.run (regexp.Repeat a (S n)) k bot s
  = regexp.run a (regexp.run (regexp.Repeat a n) k) bot s.
Proof. reflexivity. Qed.

Lemma run_Repeat_O a k bot s :
  regexp.run (regexp.Repeat a 0) k bot s = k bot s.
Proof. reflexivity. Qed.

(** [\d{n}] followed by [k]: the text starts with [n] digits and [k] accepts
    the rest. *)
Lemma append_empty_r s : s ++ "" = s.
Proof. induction s as [|c s IH]; cbn; [reflexivity | now rewrite IH]. Qed.

Lemma run_digits n : forall k bot s,
  regexp.run (regexp.Repeat regexp.PerlDigit n) k bot s = true <->
  exists pre suf,
    s = pre ++ suf /\ String.length pre = n /\
    (forall c, In c (list_ascii_of_string pre) -> ascii_decimal_digit c) /\
    k (match n with O => bot | S _ => false end) suf = true.
Proof.
  induction n as [|n IH]; intros k bot s.
  - rewrite run_Repeat_O. split.
    + intros H. exists "", s. split; [reflexivity|]. split; [reflexivity|].
      split; [intros x []|exact H].
    + intros (pre & suf & -> & Hlen & _ & Hk).
      destruct pre; [exact Hk | discriminate].
  - rewrite run_Repeat_S. destruct s as [|c s].
    + split; [discriminate|].
      intros (pre & suf & Hs & Hlen & _).
      destruct pre; discriminate.
    + change (regexp.run regexp.PerlDigit ?k0 bot (String c s))
        with (is_ascii_digit c && k0 false s).
      rewrite andb_true_iff, IH, is_ascii_digit_spec. split.
      * intros (Hc & pre & suf & -> & Hlen & Hd & Hk).
        exists (String c pre), suf.
        split; [reflexivity|]. split; [cbn; now rewrite Hlen|].
        split; [intros x [<-|Hin]; auto|].
        destruct n; exact Hk.
      * intros (pre & suf & Hs & Hlen & Hd & Hk).
        destruct pre as [|c' pre]; [discriminate|].
        cbn in Hs, Hlen. injection Hs as <- ->. injection Hlen as Hlen.
        split; [apply Hd; left; reflexivity|].
        exists pre, suf.
        split; [reflexivity|]. split; [exact Hlen|].
        split; [intros x Hin; apply Hd; right; exact Hin|].
        destruct n; exact Hk.
Qed.

Lemma Compile_cep : regexp.Compile "^\d{8}$" = OK cep_regexp.
Proof. reflexivity. Qed.

(** A pattern that starts with [^] matches nowhere but at the beginning. *)
Lemma search_anchored re s :
  regexp.search (regexp.Concat regexp.BeginText re) false s = false.
Proof. induction s as [|c s IH]; cbn; auto. Qed.

Lemma search_anchored_bot re s :
  regexp.search (regexp.Concat regexp.BeginText re) true s
  = regexp.run re (fun _ _ => true) true s.
Proof.
  destruct s as [|c s]; cbn [regexp.search regexp.run andb].
  - apply orb_false_r.
  - rewrite search_anchored. apply orb_false_r.
Qed.

Lemma search_cep s :
  regexp.search cep_regexp true s = true <-> eight_ascii_digits s.
Proof.
  unfold cep_regexp. rewrite search_anchored_bot.
  change (regexp.run (regexp.Concat ?a ?b) ?k) with (regexp.run a (regexp.run b k)).
  rewrite run_digits. unfold eight_ascii_digits. split.
  - intros (pre & suf & -> & Hlen & Hd & Hk).
    destruct suf; [|discriminate]. rewrite append_empty_r. auto.
  - intros [Hlen Hd]. exists s, "". rewrite append_empty_r. auto.
Qed.

Lemma IsValidCEP_search s :
  utils.IsValidCEP s = regexp.search cep_regexp true s.
Proof.
  unfold utils.IsValidCEP, regexp.MatchString. now rewrite Compile_cep.
Qed.

Lemma IsValidCEP_true_iff s :
  utils.IsValidCEP s = true <-> eight_ascii_digits s.
Proof. rewrite IsValidCEP_search. apply search_cep. Qed.

(** C2.  [IsValidCEP s] is true exactly when [s] is 8 ASCII decimal digits
    and nothing else, and false for every other string; the pattern always
    compiles, so the error that [MatchString] returns and the validator
    drops is always nil. *)
Theorem IsValidCEP_eight_ascii_digits (s : string) :
  (utils.IsValidCEP s = true <-> eight_ascii_digits s) /\
  (utils.IsValidCEP s = false <-> ~ eight_ascii_digits s) /\
  regexp.MatchString "^\d{8}$" s = (utils.IsValidCEP s, None).
Proof.
  split; [|split].
  - apply IsValidCEP_true_iff.
  - rewrite <- IsValidCEP_true_iff.
    destruct (utils.IsValidCEP s); split; congruence.
  - unfold utils.IsValidCEP, regexp.MatchString.
    now rewrite Compile_cep.
Qed.

(** The cases of the repository's tests. *)
Example IsValidCEP_tests :
  map utils.IsValidCEP
    ["01001000"; "00000000"; "01001-000"; "0100100"; "010010000";
     "0100100a"; ""; " 01001000"; "01001000 "; "０１００１０００";
     "01001000" ++ newline]
  = [true; true; false; false; false; false; false; false; false; false;
     false].
Proof. reflexivity. Qed.

(** * The converter (commons.go) *)

(** C3.  For every Celsius value the report holds the value itself, the
    value times 1.8 plus 32, and the value plus 273, in binary64 arithmetic;
    the function is total.  The values of the specification's examples are
    exact, and the Kelvin offset is 273, not 273.15. *)
Theorem ConvertTemperatures_formulas :
  (forall c : float,
      utils.ConvertTemperatures c = TemperatureReport "" c /\
      models.TempC (utils.ConvertTemperatures c) = c /\
      models.TempF (utils.ConvertTemperatures c) = (c * 1.8 + 32)%float /\
      models.TempK (utils.ConvertTemperatures c) = (c + 273)%float) /\
  (models.TempF (utils.ConvertTemperatures 0) = 32%float /\
   models.TempK (utils.ConvertTemperatures 0) = 273%float) /\
  (models.TempF (utils.ConvertTemperatures 100) = 212%float /\
   models.TempK (utils.ConvertTemperatures 100) = 373%float) /\
  (models.TempF (utils.ConvertTemperatures (-40)) = (-40)%float /\
   models.TempK (utils.ConvertTemperatures (-40)) = 233%float) /\
  (models.TempF (utils.ConvertTemperatures 25.5) = 77.9%float /\
   models.TempK (utils.ConvertTemperatures 25.5) = 298.5%float) /\
  PrimFloat.eqb (models.TempK (utils.ConvertTemperatures 0)) 273.15 = false.
Proof. repeat split; reflexivity. Qed.

(** * The gateway's validator (service-input/main.go) *)

Lemma ReplaceAll_byte c s :
  strings.ReplaceAll s (String c "") ""
  = without_byte c s.
Proof.
  unfold strings.ReplaceAll.
  induction s as [|c' s IH]; [reflexivity|].
  cbn [strings.replace_from strings.HasPrefix String.length Nat.sub
       without_byte].
  rewrite andb_true_r. destruct (Ascii.eqb c' c); cbn; now rewrite IH.
Qed.

Lemma strip_separators s :
  strings.ReplaceAll (strings.ReplaceAll s "-" "") " " ""
  = without_separators s.
Proof.
  rewrite !ReplaceAll_byte.
  induction s as [|c s IH]; [reflexivity|].
  cbn [without_separators without_byte].
  destruct (Ascii.eqb c "-") eqn:E1; cbn [orb without_byte].
  - exact IH.
  - destruct (Ascii.eqb c " ") eqn:E2; [exact IH|].
    f_equal. exact IH.
Qed.

Lemma without_separators_id s :
  separator_free s -> without_separators s = s.
Proof.
  induction s as [|c s IH]; intros H; [reflexivity|].
  cbn [without_separators].
  destruct (H c (or_introl eq_refl)) as [H1 H2].
  apply Ascii.eqb_neq in H1, H2. rewrite H1, H2. cbn [orb].
  f_equal. apply IH. intros c' Hin. apply H. right. exact Hin.
Qed.

(** C8.  The gateway's validator is the orchestrator's validator after the
    hyphens and spaces are removed: it accepts exactly the strings whose
    remaining bytes are 8 ASCII digits, and the two validators agree on
    every string without a hyphen or a space. *)
Theorem validateCEP_is_IsValidCEP_after_stripping (s : string) :
  service_input.validateCEP s = utils.IsValidCEP (without_separators s) /\
  (service_input.validateCEP s = true <->
   eight_ascii_digits (without_separators s)) /\
  (separator_free s -> service_input.validateCEP s = utils.IsValidCEP s).
Proof.
  assert (E : service_input.validateCEP s
              = utils.IsValidCEP (without_separators s)).
  { unfold service_input.validateCEP, utils.IsValidCEP.
    now rewrite strip_separators. }
  split; [exact E|]. split.
  - rewrite E. apply IsValidCEP_true_iff.
  - intros H. rewrite E. now rewrite without_separators_id.
Qed.

(** The gateway accepts formatted codes that the orchestrator rejects. *)
Example validateCEP_tests :
  map service_input.validateCEP
    ["01001000"; "01001-000"; "0 1 0 0 1 - 0 0 0"; "0100100"; "01001_000"]
  = [true; true; true; false; false]
  /\ utils.IsValidCEP "01001-000" = false.
Proof. split; reflexivity. Qed.

(** * The provider clients *)

Local Opaque fmt.Sprintf url.QueryEscape.

(** A traced client under any tracer returns the value and leaves the
    events of its run under the no-op tracer. *)
Lemma Traced_GetCityFromCEP_run tr w ctx cep span st :
  exists t',
    utils.Traced.GetCityFromCEP tr w ctx cep span st
    = (geocode_traced w cep,
       {| tracing := t';
          events := (events st ++ geocode_traced_events w cep)%list |}).
Proof.
  unfold geocode_traced, geocode_traced_events, utils.Traced.GetCityFromCEP.
  run_cases.
  all: cbn [app]; rewrite ?app_nil_r; eexists; reflexivity.
Qed.

Lemma Traced_GetTemperature_run tr w ctx city span st :
  exists t',
    utils.Traced.GetTemperature tr w ctx city span st
    = (weather_traced w city,
       {| tracing := t';
          events := (events st ++ weather_traced_events w city)%list |}).
Proof.
  unfold weather_traced, weather_traced_events, utils.Traced.GetTemperature.
  run_cases.
  all: cbn [app]; rewrite <- ?app_assoc, ?app_nil_r; eexists; reflexivity.
Qed.

Lemma Plain_GetCityFromCEP_run {T} w cep (st : St T) :
  utils.Plain.GetCityFromCEP w cep st
  = (geocode_plain w cep,
     {| tracing := tracing st;
        events := (events st ++ geocode_plain_events w cep)%list |}).
Proof.
  unfold geocode_plain, geocode_plain_events, utils.Plain.GetCityFromCEP.
  destruct st as [t evs]. run_cases.
  all: cbn [app]; rewrite ?app_nil_r; reflexivity.
Qed.

Lemma Plain_GetTemperature_run {T} w city (st : St T) :
  utils.Plain.GetTemperature w city st
  = (weather_plain w city,
     {| tracing := tracing st;
        events := (events st ++ weather_plain_events w city)%list |}).
Proof.
  unfold weather_plain, weather_plain_events, utils.Plain.GetTemperature.
  destruct st as [t evs]. run_cases.
  all: cbn [app]; rewrite <- ?app_assoc, ?app_nil_r; reflexivity.
Qed.

Lemma Traced_GetCityFromCEP_any_tracing tr w ctx cep span st :
  fst (utils.Traced.GetCityFromCEP tr w ctx cep span st)
  = geocode_traced w cep.
Proof.
  now destruct (Traced_GetCityFromCEP_run tr w ctx cep span st) as [t' ->].
Qed.

Lemma Traced_GetTemperature_any_tracing tr w ctx city span st :
  fst (utils.Traced.GetTemperature tr w ctx city span st)
  = weather_traced w city.
Proof.
  now destruct (Traced_GetTemperature_run tr w ctx city span st) as [t' ->].
Qed.

Lemma Plain_GetCityFromCEP_any_state {T} w cep (st : St T) :
  fst (utils.Plain.GetCityFromCEP w cep st) = geocode_plain w cep.
Proof. now rewrite Plain_GetCityFromCEP_run. Qed.

Lemma Plain_GetTemperature_any_state {T} w city (st : St T) :
  fst (utils.Plain.GetTemperature w city st) = weather_plain w city.
Proof. now rewrite Plain_GetTemperature_run. Qed.

(** The reference runs, stage by stage. *)
Lemma geocode_traced_decoded w cep resp :
  answers w (viacep_url cep) resp ->
  http.StatusCode resp = http.StatusOK ->
  geocode_traced w cep
  = match Decode_ViaCEP w (http.Body resp) models.zero_ViaCEP with
    | (_, Some err) => ("", Some err)
    | (v, None) =>
        if models.Erro v || String.eqb (models.Localidade v) ""
        then ("", Some (errors_New "can not find zipcode"))
        else (models.Localidade v, None)
    end.
Proof.
  intros [Hparse Hrt] Hcode.
  unfold geocode_traced, utils.Traced.GetCityFromCEP, http_NewRequest.
  unfold viacep_url in *. rewrite Hparse. run_monad. rewrite Hrt, Hcode.
  cbn [negb Z.eqb http.StatusOK Pos.eqb].
  now run_cases.
Qed.

Lemma geocode_plain_decoded w cep resp :
  answers w (viacep_url cep) resp ->
  geocode_plain w cep
  = match Decode_ViaCEP w (http.Body resp) models.zero_ViaCEP with
    | (_, Some err) => ("", Some err)
    | (v, None) =>
        if models.Erro v || String.eqb (models.Localidade v) ""
        then ("", Some (errors_New "zipcode not found"))
        else (models.Localidade v, None)
    end.
Proof.
  intros [Hparse Hrt].
  unfold geocode_plain, utils.Plain.GetCityFromCEP.
  unfold viacep_url in *. run_monad. unfold http_NewRequest.
  rewrite Hparse. run_monad. rewrite Hrt.
  now run_cases.
Qed.

(** The traced client rejects every status but 200, whatever the body. *)
Lemma Traced_GetCityFromCEP_provider_error tr w ctx cep span st resp :
  answers w (viacep_url cep) resp ->
  http.StatusCode resp <> http.StatusOK ->
  fst (utils.Traced.GetCityFromCEP tr w ctx cep span st)
  = ("", Some (fmt.Errorf "ViaCEP API returned status: %d"
                 [fmt.Int (http.StatusCode resp)])).
Proof.
  intros [Hparse Hrt] Hcode. apply Z.eqb_neq in Hcode.
  rewrite (Traced_GetCityFromCEP_any_tracing tr w ctx cep span st).
  unfold geocode_traced, utils.Traced.GetCityFromCEP, http_NewRequest.
  unfold viacep_url in *. rewrite Hparse. run_monad. rewrite Hrt, Hcode.
  reflexivity.
Qed.

Lemma not_found_cases (v : models.ViaCEP) :
  models.Erro v = true \/ models.Localidade v = "" ->
  models.Erro v || String.eqb (models.Localidade v) "" = true.
Proof.
  intros [H|H]; rewrite H; [reflexivity|]. apply orb_true_r.
Qed.

(** C4.  A geocode response that [Decode] accepted and that has its [erro]
    flag set or an empty city makes the client fail, with one and the same
    error for the two causes; whatever else is wrong with such a response,
    the client fails; a city the client returns without error is never
    empty.  Both generations of the client. *)
Theorem GetCityFromCEP_not_found_or_nonempty :
  (forall tr w ctx cep span st resp v,
      answers w (viacep_url cep) resp ->
      http.StatusCode resp = http.StatusOK ->
      Decode_ViaCEP w (http.Body resp) models.zero_ViaCEP = (v, None) ->
      models.Erro v = true \/ models.Localidade v = "" ->
      fst (utils.Traced.GetCityFromCEP tr w ctx cep span st)
      = ("", Some (errors_New "can not find zipcode"))) /\
  (forall T w cep (st : St T) resp v,
      answers w (viacep_url cep) resp ->
      Decode_ViaCEP w (http.Body resp) models.zero_ViaCEP = (v, None) ->
      models.Erro v = true \/ models.Localidade v = "" ->
      fst (utils.Plain.GetCityFromCEP w cep st)
      = ("", Some (errors_New "zipcode not found"))) /\
  (forall tr w ctx cep span st resp,
      answers w (viacep_url cep) resp ->
      models.Erro (fst (Decode_ViaCEP w (http.Body resp) models.zero_ViaCEP))
      = true \/
      models.Localidade
        (fst (Decode_ViaCEP w (http.Body resp) models.zero_ViaCEP)) = "" ->
      snd (fst (utils.Traced.GetCityFromCEP tr w ctx cep span st)) <> None) /\
  (forall T w cep (st : St T) resp,
      answers w (viacep_url cep) resp ->
      models.Erro (fst (Decode_ViaCEP w (http.Body resp) models.zero_ViaCEP))
      = true \/
      models.Localidade
        (fst (Decode_ViaCEP w (http.Body resp) models.zero_ViaCEP)) = "" ->
      snd (fst (utils.Plain.GetCityFromCEP w cep st)) <> None) /\
  (forall tr w ctx cep span st city,
      fst (utils.Traced.GetCityFromCEP tr w ctx cep span st) = (city, None) ->
      city <> "") /\
  (forall T w cep (st : St T) city,
      fst (utils.Plain.GetCityFromCEP w cep st) = (city, None) ->
      city <> "").
Proof.
  split; [|split; [|split; [|split; [|split]]]].
  - intros tr w ctx cep span st resp v Hans Hcode Hdec Hv.
    rewrite (Traced_GetCityFromCEP_any_tracing tr w ctx cep span st).
    rewrite (geocode_traced_decoded w cep resp Hans Hcode), Hdec.
    now rewrite not_found_cases.
  - intros T w cep st resp v Hans Hdec Hv.
    rewrite Plain_GetCityFromCEP_any_state.
    rewrite (geocode_plain_decoded w cep resp Hans), Hdec.
    now rewrite not_found_cases.
  - intros tr w ctx cep span st resp Hans Hv.
    rewrite (Traced_GetCityFromCEP_any_tracing tr w ctx cep span st).
    destruct (Z.eq_dec (http.StatusCode resp) http.StatusOK) as [Hcode|Hcode].
    + rewrite (geocode_traced_decoded w cep resp Hans Hcode).
      destruct (Decode_ViaCEP w (http.Body resp) models.zero_ViaCEP)
        as [v [e|]]; [discriminate|].
      cbn [fst] in Hv. now rewrite not_found_cases.
    + rewrite <- (Traced_GetCityFromCEP_any_tracing trace.Noop w tt cep tt
                    (initial tt)).
      now rewrite (Traced_GetCityFromCEP_provider_error trace.Noop w tt cep tt
                     (initial tt) resp Hans Hcode).
  - intros T w cep st resp Hans Hv.
    rewrite Plain_GetCityFromCEP_any_state.
    rewrite (geocode_plain_decoded w cep resp Hans).
    destruct (Decode_ViaCEP w (http.Body resp) models.zero_ViaCEP)
      as [v [e|]]; [discriminate|].
    cbn [fst] in Hv. now rewrite not_found_cases.
  - intros tr w ctx cep span st city.
    unfold utils.Traced.GetCityFromCEP. run_cases; try discriminate.
    intros H; injection H as <-. intros Hcity.
    rewrite Hcity in *. rewrite orb_true_r in *. discriminate.
  - intros T w cep st city.
    unfold utils.Plain.GetCityFromCEP. run_cases; try discriminate.
    intros H; injection H as <-. intros Hcity.
    rewrite Hcity in *. rewrite orb_true_r in *. discriminate.
Qed.

(** The two payloads of the specification, [{"erro": true}] and
    [{"localidade": ""}], end in the same error. *)
Lemma GetCityFromCEP_not_found_witness :
  fst (utils.Traced.GetCityFromCEP trace.Recording
         (the_world (response 200 erro_json) (response 200 ""))
         [] "01001000" 0%nat (initial []))
  = ("", Some (errors_New "can not find zipcode")) /\
  fst (utils.Traced.GetCityFromCEP trace.Recording
         (the_world (response 200 empty_city_json) (response 200 ""))
         [] "01001000" 0%nat (initial []))
  = ("", Some (errors_New "can not find zipcode")).
Proof.
  split.
  - eapply (proj1 GetCityFromCEP_not_found_or_nonempty);
      [split; reflexivity | reflexivity | reflexivity | left; reflexivity].
  - eapply (proj1 GetCityFromCEP_not_found_or_nonempty);
      [split; reflexivity | reflexivity | reflexivity | right; reflexivity].
Defined.

(** C5, at the failing input.  The provider answers 404 with a body that
    decodes to a city: the client of viacep.go returns the city and no
    error, where the traced client reports the status. *)
Theorem Plain_GetCityFromCEP_ignores_status :
  answers (the_world (response 404 sao_paulo_json) (response 200 ""))
    (viacep_url "01001000")
    {| http.StatusCode := 404; http.Status := "404";
       http.Body := body_of sao_paulo_json |} /\
  geocode_plain (the_world (response 404 sao_paulo_json) (response 200 ""))
    "01001000" = ("São Paulo", None) /\
  geocode_traced (the_world (response 404 sao_paulo_json) (response 200 ""))
    "01001000" = ("", Some (errors_New "ViaCEP API returned status: 404")).
Proof. repeat split. Qed.

(** * The weather payload *)









(** The payload of the repository's test [InvalidJSON]: a temperature that is
    a string is rejected by [Decode]. *)
Example Unmarshal_WeatherAPI_string_temperature :
  snd (json.Unmarshal_WeatherAPI (fun _ => Fail (errors_New "syntax"))
         (json.Object
            [("current",
              json.Object [("temp_c", json.Str "invalid_number")])])
         models.zero_WeatherAPI)
  = Some (errors_New
            "json: cannot unmarshal string into Go struct field WeatherAPI.current.temp_c of type float64").
Proof. reflexivity. Qed.

(** * The orchestrator's handler *)

(** Replace the call of a client by its reference run. *)
Ltac client_runs :=
  repeat match goal with
    | |- context [utils.Traced.GetCityFromCEP ?tr ?w ?ctx ?cep ?span ?st] =>
        let t := fresh "t" in let E := fresh "E" in
        destruct (Traced_GetCityFromCEP_run tr w ctx cep span st) as [t E];
        rewrite E; clear E
    | |- context [utils.Traced.GetTemperature ?tr ?w ?ctx ?city ?span ?st] =>
        let t := fresh "t" in let E := fresh "E" in
        destruct (Traced_GetTemperature_run tr w ctx city span st) as [t E];
        rewrite E; clear E
    | |- context [utils.Plain.GetCityFromCEP ?w ?cep ?st] =>
        rewrite (Plain_GetCityFromCEP_run w cep st)
    | |- context [utils.Plain.GetTemperature ?w ?city ?st] =>
        rewrite (Plain_GetTemperature_run w city st)
    end.

(** One step of a handler: a case analysis on what the validator, the
    tracer or a client returned. *)
Ltac handler_step :=
  run_monad; cbn [fst snd events tracing initial]; client_runs;
  match goal with
  | |- context [negb (utils.IsValidCEP ?cep)] =>
      let E := fresh "Hvalid" in destruct (utils.IsValidCEP cep) eqn:E;
      cbn [negb]
  | |- context [trace.Tracer_Start ?tr ?ctx ?name ?t] =>
      let c := fresh "ctx" in let s := fresh "span" in let t' := fresh "t" in
      destruct (trace.Tracer_Start tr ctx name t) as [[c s] t']
  | |- context [match geocode_traced ?w ?cep with _ => _ end] =>
      let E := fresh "Hgeo" in
      destruct (geocode_traced w cep) as [? [?|]] eqn:E
  | |- context [match weather_traced ?w ?city with _ => _ end] =>
      let E := fresh "Hwea" in
      destruct (weather_traced w city) as [? [?|]] eqn:E
  | |- context [match geocode_plain ?w ?cep with _ => _ end] =>
      let E := fresh "Hgeo" in
      destruct (geocode_plain w cep) as [? [?|]] eqn:E
  | |- context [match weather_plain ?w ?city with _ => _ end] =>
      let E := fresh "Hwea" in
      destruct (weather_plain w city) as [? [?|]] eqn:E
  end.

Ltac handler_cases := repeat handler_step; run_monad;
  cbn [fst snd events tracing initial].

Lemma set_City_ConvertTemperatures c city :
  handler.set_City (utils.ConvertTemperatures c) city
  = TemperatureReport city c.
Proof. reflexivity. Qed.

Lemma response_of_Encode_to code e :
  response_of
    (Encode_to
       (http.WriteHeader
          (http.Header_Set_w http.NewRecorder "Content-Type" "application/json")
          code) e)
  = (code, encoded e).
Proof. destruct e; reflexivity. Qed.

(** The traced handler under any tracer writes what it writes under the
    no-op tracer, and leaves the same events. *)
Lemma Traced_TemperatureHandler_any_tracing tr w rw r st :
  let out := handler.Traced.TemperatureHandler tr w rw r st in
  let ref := handler.Traced.TemperatureHandler trace.Noop w rw
               (query_request (http.Query r)) (initial tt) in
  fst out = fst ref /\
  events (snd out) = (events st ++ events (snd ref))%list.
Proof.
  unfold handler.Traced.TemperatureHandler, http.Query_Get, query_request.
  cbn [http.Query http.Context http.InHeader].
  handler_cases.
  all: split; [reflexivity|].
  all: cbn [app]; rewrite <- ?app_assoc, ?app_nil_r; reflexivity.
Qed.

Lemma Traced_TemperatureHandler_response tr w r st :
  response_of
    (fst (handler.Traced.TemperatureHandler tr w http.NewRecorder r st))
  = four_classes utils.IsValidCEP (geocode_traced w) (weather_traced w)
      (json_Marshal_Temperature w) (http.Query_Get r "cep").
Proof.
  unfold four_classes, handler.Traced.TemperatureHandler.
  handler_cases; rewrite ?set_City_ConvertTemperatures;
    try reflexivity; apply response_of_Encode_to.
Qed.

Lemma Plain_TemperatureHandler_response {T Ctx} w
      (r : http.ServerRequest Ctx) (st : St T) :
  response_of
    (fst (handler.Plain.TemperatureHandler w http.NewRecorder r st))
  = four_classes utils.IsValidCEP (geocode_plain w) (weather_plain w)
      (json_Marshal_Temperature w) (http.Query_Get r "cep").
Proof.
  unfold four_classes, handler.Plain.TemperatureHandler.
  handler_cases; rewrite ?set_City_ConvertTemperatures;
    try reflexivity; apply response_of_Encode_to.
Qed.


Lemma outbound_app evs1 evs2 :
  outbound (evs1 ++ evs2) = (outbound evs1 ++ outbound evs2)%list.
Proof.
  induction evs1 as [|[args|req|msg] evs1 IH]; cbn; now rewrite ?IH.
Qed.

(** Every client is a single attempt. *)
Lemma clients_single_attempt w :
  (forall cep,
      at_most (viacep_request cep) (outbound (geocode_traced_events w cep)) /\
      at_most (viacep_request cep) (outbound (geocode_plain_events w cep))) /\
  (forall city,
      at_most (weather_request w city)
        (outbound (weather_traced_events w city)) /\
      at_most (weather_request w city)
        (outbound (weather_plain_events w city))).
Proof.
  unfold at_most, viacep_request, weather_request, viacep_url, weather_url.
  split; intros x; split.
  - unfold geocode_traced_events, utils.Traced.GetCityFromCEP, http_NewRequest.
    run_cases; cbn [outbound app events]; auto.
  - unfold geocode_plain_events, utils.Plain.GetCityFromCEP.
    run_monad. unfold http_NewRequest.
    run_cases; cbn [outbound app events]; auto.
  - unfold weather_traced_events, utils.Traced.GetTemperature, http_NewRequest.
    run_cases; cbn [outbound app events]; auto.
  - unfold weather_plain_events, utils.Plain.GetTemperature.
    run_monad. unfold http_NewRequest.
    run_cases; cbn [outbound app events]; auto.
Qed.

(** Without credential the weather client fails before any request. *)
Lemma weather_without_credential w city :
  os_Getenv w "APIKeyWeather" = "" ->
  outbound (weather_traced_events w city) = [] /\
  outbound (weather_plain_events w city) = [].
Proof.
  intros Hkey. split.
  - unfold weather_traced_events, utils.Traced.GetTemperature.
    now rewrite Hkey.
  - unfold weather_plain_events, utils.Plain.GetTemperature.
    now rewrite Hkey.
Qed.

Local Opaque geocode_traced_events weather_traced_events
  geocode_plain_events weather_plain_events.

(** C6.  The requests a run of the handler sends are those of a fail-fast
    pipeline: none when the postal code is invalid (the response is then 422
    with body [invalid zipcode]), only those of the geocode client when it
    fails, and each client sends at most its one request; a weather client
    without credential sends none.  Both generations. *)
Theorem TemperatureHandler_fail_fast :
  (forall tr w r t,
      sent_by (handler.Traced.TemperatureHandler tr w http.NewRecorder r) t
      = fail_fast_requests utils.IsValidCEP (geocode_traced w)
          (fun cep => outbound (geocode_traced_events w cep))
          (fun city => outbound (weather_traced_events w city))
          (http.Query_Get r "cep")) /\
  (forall T Ctx w (r : http.ServerRequest Ctx) (t : T),
      sent_by (handler.Plain.TemperatureHandler w http.NewRecorder r) t
      = fail_fast_requests utils.IsValidCEP (geocode_plain w)
          (fun cep => outbound (geocode_plain_events w cep))
          (fun city => outbound (weather_plain_events w city))
          (http.Query_Get r "cep")) /\
  (forall w cep city,
      at_most (viacep_request cep) (outbound (geocode_traced_events w cep)) /\
      at_most (viacep_request cep) (outbound (geocode_plain_events w cep)) /\
      at_most (weather_request w city)
        (outbound (weather_traced_events w city)) /\
      at_most (weather_request w city)
        (outbound (weather_plain_events w city))) /\
  (forall tr w r t,
      utils.IsValidCEP (http.Query_Get r "cep") = false ->
      response_of
        (fst (handler.Traced.TemperatureHandler tr w http.NewRecorder r
                (initial t)))
      = (422%Z, "invalid zipcode") /\
      sent_by (handler.Traced.TemperatureHandler tr w http.NewRecorder r) t
      = []) /\
  (forall T Ctx w (r : http.ServerRequest Ctx) (t : T),
      utils.IsValidCEP (http.Query_Get r "cep") = false ->
      response_of
        (fst (handler.Plain.TemperatureHandler w http.NewRecorder r
                (initial t)))
      = (422%Z, "invalid zipcode") /\
      sent_by (handler.Plain.TemperatureHandler w http.NewRecorder r) t
      = []) /\
  (forall w city,
      os_Getenv w "APIKeyWeather" = "" ->
      outbound (weather_traced_events w city) = [] /\
      outbound (weather_plain_events w city) = []).
Proof.
  assert (Htraced : forall tr w r t,
    sent_by (handler.Traced.TemperatureHandler tr w http.NewRecorder r) t
    = fail_fast_requests utils.IsValidCEP (geocode_traced w)
        (fun cep => outbound (geocode_traced_events w cep))
        (fun city => outbound (weather_traced_events w city))
        (http.Query_Get r "cep")).
  { intros tr w r t.
    unfold sent_by, fail_fast_requests, handler.Traced.TemperatureHandler.
    handler_cases;
      rewrite ?outbound_app; cbn [outbound app]; rewrite ?app_nil_r;
      reflexivity. }
  assert (Hplain : forall T Ctx w (r : http.ServerRequest Ctx) (t : T),
    sent_by (handler.Plain.TemperatureHandler w http.NewRecorder r) t
    = fail_fast_requests utils.IsValidCEP (geocode_plain w)
        (fun cep => outbound (geocode_plain_events w cep))
        (fun city => outbound (weather_plain_events w city))
        (http.Query_Get r "cep")).
  { intros T Ctx w r t.
    unfold sent_by, fail_fast_requests, handler.Plain.TemperatureHandler.
    handler_cases;
      rewrite ?outbound_app; cbn [outbound app]; rewrite ?app_nil_r;
      reflexivity. }
  split; [exact Htraced|]. split; [exact Hplain|]. split; [|split; [|split]].
  - intros w cep city.
    destruct (clients_single_attempt w) as [Hg Hw].
    destruct (Hg cep) as [Hg1 Hg2]. destruct (Hw city) as [Hw1 Hw2].
    split; [exact Hg1|]. split; [exact Hg2|]. split; [exact Hw1|exact Hw2].
  - intros tr w r t Hinvalid. split.
    + rewrite Traced_TemperatureHandler_response.
      unfold four_classes. now rewrite Hinvalid.
    + rewrite Htraced. unfold fail_fast_requests. now rewrite Hinvalid.
  - intros T Ctx w r t Hinvalid. split.
    + rewrite Plain_TemperatureHandler_response.
      unfold four_classes. now rewrite Hinvalid.
    + rewrite Hplain. unfold fail_fast_requests. now rewrite Hinvalid.
  - intros w city Hkey. now apply weather_without_credential.
Qed.

Local Transparent geocode_traced_events weather_traced_events
  geocode_plain_events weather_plain_events.

(** * Tracing is metadata *)

(** C9.  Two runs that differ only in the tracer, the context, the span
    handed in and the state of the tracing backend return the same value or
    error from each client, and the handler writes the same response
    (status, headers and body) and leaves the same events for the same
    query.  The tracers are arbitrary implementations of the API: one that
    records, one that drops everything. *)
Theorem tracing_never_alters_outcome :
  (forall tr1 tr2 w cep ctx1 span1 st1 ctx2 span2 st2,
      fst (utils.Traced.GetCityFromCEP tr1 w ctx1 cep span1 st1)
      = fst (utils.Traced.GetCityFromCEP tr2 w ctx2 cep span2 st2)) /\
  (forall tr1 tr2 w city ctx1 span1 st1 ctx2 span2 st2,
      fst (utils.Traced.GetTemperature tr1 w ctx1 city span1 st1)
      = fst (utils.Traced.GetTemperature tr2 w ctx2 city span2 st2)) /\
  (forall tr1 tr2 w rw r1 r2 st1 st2,
      http.Query r1 = http.Query r2 ->
      fst (handler.Traced.TemperatureHandler tr1 w rw r1 st1)
      = fst (handler.Traced.TemperatureHandler tr2 w rw r2 st2) /\
      (events st1 = events st2 ->
       events (snd (handler.Traced.TemperatureHandler tr1 w rw r1 st1))
       = events (snd (handler.Traced.TemperatureHandler tr2 w rw r2 st2)))).
Proof.
  split; [|split].
  - intros. now rewrite !Traced_GetCityFromCEP_any_tracing.
  - intros. now rewrite !Traced_GetTemperature_any_tracing.
  - intros tr1 tr2 w rw r1 r2 st1 st2 Hq.
    destruct (Traced_TemperatureHandler_any_tracing tr1 w rw r1 st1)
      as [H1 E1].
    destruct (Traced_TemperatureHandler_any_tracing tr2 w rw r2 st2)
      as [H2 E2].
    rewrite H1, H2, E1, E2, Hq. split; [reflexivity|].
    intros ->. reflexivity.
Qed.

(** The recording tracer and the no-op tracer on the end-to-end example. *)
Lemma tracing_never_alters_outcome_witness :
  fst (handler.Traced.TemperatureHandler trace.Recording happy_world
         http.NewRecorder (get_request [] "01001000") (initial []))
  = fst (handler.Traced.TemperatureHandler trace.Noop happy_world
           http.NewRecorder (get_request tt "01001000") (initial tt)).
Proof.
  apply (proj2 (proj2 tracing_never_alters_outcome)
           trace.Recording trace.Noop happy_world http.NewRecorder
           (get_request [] "01001000") (get_request tt "01001000")
           (initial []) (initial tt)).
  reflexivity.
Defined.

(** The end-to-end examples of the specification. *)
Example TemperatureHandler_end_to_end :
  response_of
    (fst (handler.Traced.TemperatureHandler trace.Recording happy_world
            http.NewRecorder (get_request [] "01001000") (initial [])))
  = (200%Z, report_25_5_json ++ newline)
  /\ response_of
       (fst (handler.Traced.TemperatureHandler trace.Recording happy_world
               http.NewRecorder (get_request [] "1234567") (initial [])))
     = (422%Z, "invalid zipcode")
  /\ sent_by (handler.Traced.TemperatureHandler trace.Recording happy_world
                http.NewRecorder (get_request [] "1234567")) []
     = []
  /\ response_of
       (fst (handler.Traced.TemperatureHandler trace.Recording
               (the_world (response 200 erro_json) (response 200 ""))
               http.NewRecorder (get_request [] "01001000") (initial [])))
     = (404%Z, "can not find zipcode")
  /\ response_of
       (fst (handler.Traced.TemperatureHandler trace.Recording
               (the_world (response 200 sao_paulo_json) (response 401 ""))
               http.NewRecorder (get_request [] "01001000") (initial [])))
     = (500%Z, "error getting temperature").
Proof. repeat split; vm_compute; reflexivity. Qed.

(** * The gateway *)

Lemma response_of_error code e :
  response_of
    (Encode_to
       (http.WriteHeader
          (http.Header_Set_w http.NewRecorder "Content-Type" "application/json")
          code) e)
  = (code, encoded e) /\
  http.Header_Get
    (http.Sent
       (Encode_to
          (http.WriteHeader
             (http.Header_Set_w http.NewRecorder "Content-Type"
                "application/json")
             code) e)) "Content-Type"
  = "application/json".
Proof. destruct e; split; reflexivity. Qed.

(** C10.  When the request body decodes to a postal code that the gateway
    accepts and the orchestrator's address is configured, and building the
    forward request, sending it, or reading the body of the answer fails,
    the gateway returns status 500 with the JSON encoding of the message
    [internal server error]. *)
Theorem handleCEPRequest_internal_server_error tr w r t req :
  service_input.Decode_CEPRequest w (http.InBody r)
    {| gateway_types.CEP := "" |} = (req, None) ->
  service_input.validateCEP (gateway_types.CEP req) = true ->
  os_Getenv w "SERVICE_B_URL" <> "" ->
  forward_failure w (forward_url w (gateway_types.CEP req))
    (sent_by (service_input.handleCEPRequest tr w http.NewRecorder r) t) ->
  exists rw,
    fst (service_input.handleCEPRequest tr w http.NewRecorder r (initial t))
    = service_input.Returned rw /\
    response_of rw
    = (500%Z,
       encoded (json_Marshal_ErrorResponse w
                  {| gateway_types.Message := "internal server error" |})) /\
    http.Header_Get (http.Sent rw) "Content-Type" = "application/json".
Proof.
  intros Hdec Hvalid Hurl. apply String.eqb_neq in Hurl.
  unfold sent_by, forward_url, service_input.handleCEPRequest.
  run_monad. cbn [initial tracing events].
  destruct (trace.Tracer_Start tr (http.Context r) "validate-cep" t)
    as [[ctx span] t1].
  rewrite Hdec. run_monad. rewrite Hvalid. cbn [negb]. run_monad.
  cbn [tracing events].
  match goal with
  | |- context [trace.Tracer_Start tr ctx "call-service-b" ?t2] =>
      destruct (trace.Tracer_Start tr ctx "call-service-b" t2)
        as [[ctx' spanB] t3]
  end.
  rewrite Hurl. run_monad. unfold http_NewRequest.
  destruct (url_Parse_err w _) as [e|] eqn:Hparse.
  - intros _. cbn [service_input.returning]. run_monad. cbn [fst].
    eexists. split; [reflexivity|]. apply response_of_error.
  - run_monad. cbn [http.Method http.URL http.ReqHeader tracing events app].
    match goal with
    | |- context [RoundTrip w ?rq] =>
        set (forwarded := rq); destruct (RoundTrip w forwarded) as [resp|e]
                                 eqn:Hrt
    end.
    + unfold service_input.io_ReadAll.
      destruct (http.fault (http.Body resp)) as [e|] eqn:Hfault.
      * intros _. cbn [service_input.returning]. run_monad. cbn [fst].
        eexists. split; [reflexivity|]. apply response_of_error.
      * cbn [service_input.returning]. run_monad.
        cbn [snd events outbound].
        intros [e He|rq e _ Hsent Hfail|rq resp' e _ Hsent Hok Hbad].
        -- congruence.
        -- injection Hsent as <-. congruence.
        -- injection Hsent as <-. congruence.
    + intros _. cbn [service_input.returning]. run_monad. cbn [fst].
      eexists. split; [reflexivity|]. apply response_of_error.
Qed.

(** The orchestrator is down: the call fails. *)
Lemma handleCEPRequest_internal_server_error_witness :
  exists rw,
    fst (service_input.handleCEPRequest trace.Recording
           (gateway_world (Fail (errors_New "connection refused")))
           http.NewRecorder (post_request [] cep_json) (initial []))
    = service_input.Returned rw /\
    response_of rw
    = (500%Z, "{" ++ quoted "message" ++ ":"
                  ++ quoted "internal server error" ++ "}" ++ newline) /\
    http.Header_Get (http.Sent rw) "Content-Type" = "application/json".
Proof.
  apply (handleCEPRequest_internal_server_error trace.Recording
           (gateway_world (Fail (errors_New "connection refused")))
           (post_request [] cep_json) []
           {| gateway_types.CEP := "01001-000" |}).
  - reflexivity.
  - reflexivity.
  - discriminate.
  - eapply cannot_send; reflexivity.
Defined.

(** The documented outcomes next to it: 422 for a body that is not JSON or a
    postal code that is not valid, and the orchestrator's status and body
    passed through. *)
Example handleCEPRequest_documented_outcomes :
  (exists rw,
      fst (service_input.handleCEPRequest trace.Recording
             (gateway_world (response 404 "can not find zipcode"))
             http.NewRecorder (post_request [] cep_json) (initial []))
      = service_input.Returned rw /\
      response_of rw = (404%Z, "can not find zipcode")) /\
  (exists rw,
      fst (service_input.handleCEPRequest trace.Recording
             (gateway_world (response 200 ""))
             http.NewRecorder (post_request [] "not json") (initial []))
      = service_input.Returned rw /\
      response_of rw
      = (422%Z, "{" ++ quoted "message" ++ ":"
                    ++ quoted "invalid zipcode" ++ "}" ++ newline)).
Proof. split; eexists; split; vm_compute; reflexivity. Qed.

(** * Further properties of the provider clients *)

(** X1.  Whenever a client returns an error, the value beside it is the zero
    value: the empty city, the temperature 0.  All four clients. *)
Theorem clients_zero_value_on_error :
  (forall tr w ctx cep span st city e,
      fst (utils.Traced.GetCityFromCEP tr w ctx cep span st) = (city, Some e) ->
      city = "") /\
  (forall T w cep (st : St T) city e,
      fst (utils.Plain.GetCityFromCEP w cep st) = (city, Some e) ->
      city = "") /\
  (forall tr w ctx city span st celsius e,
      fst (utils.Traced.GetTemperature tr w ctx city span st)
      = (celsius, Some e) ->
      celsius = 0%float) /\
  (forall T w city (st : St T) celsius e,
      fst (utils.Plain.GetTemperature w city st) = (celsius, Some e) ->
      celsius = 0%float).
Proof.
  split; [|split; [|split]].
  - intros tr w ctx cep span st city e.
    unfold utils.Traced.GetCityFromCEP. run_cases; congruence.
  - intros T w cep st city e.
    unfold utils.Plain.GetCityFromCEP. run_cases; congruence.
  - intros tr w ctx city span st celsius e.
    unfold utils.Traced.GetTemperature. run_cases; congruence.
  - intros T w city st celsius e.
    unfold utils.Plain.GetTemperature. run_cases; congruence.
Qed.

(** The weather provider answers 401: an error beside the temperature 0. *)
Lemma clients_zero_value_on_error_witness :
  fst (fst (utils.Traced.GetTemperature trace.Recording
              (the_world (response 200 sao_paulo_json) (response 401 ""))
              [] "São Paulo" 0%nat (initial [])))
  = 0%float.
Proof.
  apply (proj1 (proj2 (proj2 clients_zero_value_on_error))
           trace.Recording
           (the_world (response 200 sao_paulo_json) (response 401 ""))
           [] "São Paulo" 0%nat (initial []) _
           (errors_New "weather API returned status: 401")).
  reflexivity.
Defined.

(** X2.  An error of the transport is returned as it is: when the request is
    sent and the round trip fails with [e], each client returns [e] itself;
    when the URL does not parse, each client returns the parse error and
    sends nothing. *)
Theorem clients_return_transport_error :
  (forall w cep e,
      url_Parse_err w (viacep_url cep) = None ->
      RoundTrip w (viacep_request cep) = Fail e ->
      geocode_traced w cep = ("", Some e) /\
      geocode_plain w cep = ("", Some e)) /\
  (forall w city e,
      os_Getenv w "APIKeyWeather" <> "" ->
      url_Parse_err w (weather_url w city) = None ->
      RoundTrip w (weather_request w city) = Fail e ->
      weather_traced w city = (0%float, Some e) /\
      weather_plain w city = (0%float, Some e)) /\
  (forall w cep e,
      url_Parse_err w (viacep_url cep) = Some e ->
      (geocode_traced w cep = ("", Some e) /\
       geocode_plain w cep = ("", Some e)) /\
      outbound (geocode_traced_events w cep) = [] /\
      outbound (geocode_plain_events w cep) = []) /\
  (forall w city e,
      os_Getenv w "APIKeyWeather" <> "" ->
      url_Parse_err w (weather_url w city) = Some e ->
      (weather_traced w city = (0%float, Some e) /\
       weather_plain w city = (0%float, Some e)) /\
      outbound (weather_traced_events w city) = [] /\
      outbound (weather_plain_events w city) = []).
Proof.
  unfold viacep_request, weather_request, viacep_url, weather_url.
  split; [|split; [|split]].
  - intros w cep e Hparse Hrt. split.
    + unfold geocode_traced, utils.Traced.GetCityFromCEP, http_NewRequest.
      rewrite Hparse. run_monad. now rewrite Hrt.
    + unfold geocode_plain, utils.Plain.GetCityFromCEP. run_monad.
      unfold http_NewRequest. rewrite Hparse. run_monad. now rewrite Hrt.
  - intros w city e Hkey Hparse Hrt. apply String.eqb_neq in Hkey. split.
    + unfold weather_traced, utils.Traced.GetTemperature, http_NewRequest.
      rewrite Hkey, Hparse. run_monad. now rewrite Hrt.
    + unfold weather_plain, utils.Plain.GetTemperature. rewrite Hkey.
      run_monad. unfold http_NewRequest. rewrite Hparse. run_monad.
      now rewrite Hrt.
  - intros w cep e Hparse. repeat split.
    + unfold geocode_traced, utils.Traced.GetCityFromCEP, http_NewRequest.
      now rewrite Hparse.
    + unfold geocode_plain, utils.Plain.GetCityFromCEP. run_monad.
      unfold http_NewRequest. now rewrite Hparse.
    + unfold geocode_traced_events, utils.Traced.GetCityFromCEP,
        http_NewRequest.
      now rewrite Hparse.
    + unfold geocode_plain_events, utils.Plain.GetCityFromCEP. run_monad.
      unfold http_NewRequest. now rewrite Hparse.
  - intros w city e Hkey Hparse. apply String.eqb_neq in Hkey. repeat split.
    + unfold weather_traced, utils.Traced.GetTemperature, http_NewRequest.
      now rewrite Hkey, Hparse.
    + unfold weather_plain, utils.Plain.GetTemperature. rewrite Hkey.
      run_monad. unfold http_NewRequest. now rewrite Hparse.
    + unfold weather_traced_events, utils.Traced.GetTemperature,
        http_NewRequest.
      now rewrite Hkey, Hparse.
    + unfold weather_plain_events, utils.Plain.GetTemperature. rewrite Hkey.
      run_monad. unfold http_NewRequest. now rewrite Hparse.
Qed.

(** The network is down: the repository's test [HTTPError]. *)
Lemma clients_return_transport_error_witness :
  geocode_traced
    (the_world (Fail (errors_New "network error")) (response 200 ""))
    "01001000"
  = ("", Some (errors_New "network error")) /\
  geocode_plain
    (the_world (Fail (errors_New "network error")) (response 200 ""))
    "01001000"
  = ("", Some (errors_New "network error")).
Proof.
  apply (proj1 clients_return_transport_error); reflexivity.
Defined.

(** X3.  The weather client rejects every status but 200 before it looks at the
    body, with an error that names the status.  Both generations. *)
Theorem GetTemperature_rejects_status tr T w ctx city span
        (st : St (trace.T tr)) (st' : St T) resp :
  os_Getenv w "APIKeyWeather" <> "" ->
  answers w (weather_url w city) resp ->
  http.StatusCode resp <> http.StatusOK ->
  fst (utils.Traced.GetTemperature tr w ctx city span st)
  = (0%float,
     Some (fmt.Errorf "weather API returned status: %d"
             [fmt.Int (http.StatusCode resp)])) /\
  fst (utils.Plain.GetTemperature w city st')
  = (0%float,
     Some (fmt.Errorf "weather API returned status: %d"
             [fmt.Int (http.StatusCode resp)])).
Proof.
  intros Hkey [Hparse Hrt] Hcode.
  apply String.eqb_neq in Hkey. apply Z.eqb_neq in Hcode.
  rewrite Traced_GetTemperature_any_tracing, Plain_GetTemperature_any_state.
  unfold weather_url in *. split.
  - unfold weather_traced, utils.Traced.GetTemperature, http_NewRequest.
    rewrite Hkey, Hparse. run_monad. now rewrite Hrt, Hcode.
  - unfold weather_plain, utils.Plain.GetTemperature. rewrite Hkey.
    run_monad. unfold http_NewRequest. rewrite Hparse. run_monad.
    now rewrite Hrt, Hcode.
Qed.

(** Status 401 with a body that would decode to a temperature. *)
Lemma GetTemperature_rejects_status_witness :
  fst (utils.Traced.GetTemperature trace.Recording
         (the_world (response 200 sao_paulo_json)
            (response 401 weather_25_5_json))
         [] "São Paulo" 0%nat (initial []))
  = (0%float, Some (errors_New "weather API returned status: 401")) /\
  fst (utils.Plain.GetTemperature
         (the_world (response 200 sao_paulo_json)
            (response 401 weather_25_5_json))
         "São Paulo" (initial tt))
  = (0%float, Some (errors_New "weather API returned status: 401")).
Proof.
  apply (GetTemperature_rejects_status trace.Recording unit
           (the_world (response 200 sao_paulo_json)
              (response 401 weather_25_5_json))
           [] "São Paulo" 0%nat (initial []) (initial tt)
           {| http.StatusCode := 401; http.Status := "401";
              http.Body := body_of weather_25_5_json |}).
  - discriminate.
  - split; reflexivity.
  - discriminate.
Defined.

(** * The two generations side by side *)










(** * Further properties of the handlers *)

Lemma Sent_Encode_to code e :
  http.Sent
    (Encode_to
       (http.WriteHeader
          (http.Header_Set_w http.NewRecorder "Content-Type" "application/json")
          code) e)
  = [("Content-Type", "application/json")] /\
  http.Code
    (Encode_to
       (http.WriteHeader
          (http.Header_Set_w http.NewRecorder "Content-Type" "application/json")
          code) e)
  = code.
Proof. destruct e; split; reflexivity. Qed.

(** X7.  The handler sets the header [Content-Type: application/json] exactly
    when it answers 200; with 422, 404 and 500 it sets no header at all.
    Both generations. *)
Theorem TemperatureHandler_content_type :
  (forall tr w r st,
      http.Sent
        (fst (handler.Traced.TemperatureHandler tr w http.NewRecorder r st))
      = if (http.Code
              (fst (handler.Traced.TemperatureHandler tr w http.NewRecorder
                      r st)) =? 200)%Z
        then [("Content-Type", "application/json")]
        else []) /\
  (forall T Ctx w (r : http.ServerRequest Ctx) (st : St T),
      http.Sent
        (fst (handler.Plain.TemperatureHandler w http.NewRecorder r st))
      = if (http.Code
              (fst (handler.Plain.TemperatureHandler w http.NewRecorder
                      r st)) =? 200)%Z
        then [("Content-Type", "application/json")]
        else []).
Proof.
  split.
  - intros tr w r st. unfold handler.Traced.TemperatureHandler.
    handler_cases; try reflexivity.
    match goal with
    | |- context [Encode_to _ ?e] =>
        destruct (Sent_Encode_to http.StatusOK e) as [-> ->]
    end.
    reflexivity.
  - intros T Ctx w r st. unfold handler.Plain.TemperatureHandler.
    handler_cases; try reflexivity.
    match goal with
    | |- context [Encode_to _ ?e] =>
        destruct (Sent_Encode_to http.StatusOK e) as [-> ->]
    end.
    reflexivity.
Qed.

(** * Further properties of the gateway *)

Local Opaque strings.ReplaceAll.

Ltac gateway_cases :=
  unfold service_input.handleCEPRequest, service_input.io_ReadAll;
  run_monad; unfold http_NewRequest; cbn [initial tracing events];
  repeat (first [ break_match
                | progress cbn [service_input.returning] ];
          run_monad;
          cbn [fst snd events tracing initial
               http.Method http.URL http.ReqHeader]);
  cbn [http.Method http.URL http.ReqHeader] in *.

Lemma gateway_error_written code e :
  response_of
    (Encode_to
       (http.WriteHeader
          (http.Header_Set_w http.NewRecorder "Content-Type" "application/json")
          code) e)
  = (code, encoded e) /\
  http.Sent
    (Encode_to
       (http.WriteHeader
          (http.Header_Set_w http.NewRecorder "Content-Type" "application/json")
          code) e)
  = [("Content-Type", "application/json")].
Proof. destruct e; split; reflexivity. Qed.

(** X8.  A body that does not decode, or a postal code that is not valid, is
    answered 422 with the JSON message [invalid zipcode] before anything
    else happens: no request is sent, and the orchestrator's address is not
    even read (the answer is the same when it is not configured). *)
Theorem handleCEPRequest_rejects_at_the_edge tr w r t :
  snd (service_input.Decode_CEPRequest w (http.InBody r)
         {| gateway_types.CEP := "" |}) <> None \/
  service_input.validateCEP
    (gateway_types.CEP
       (fst (service_input.Decode_CEPRequest w (http.InBody r)
               {| gateway_types.CEP := "" |}))) = false ->
  exists rw,
    fst (service_input.handleCEPRequest tr w http.NewRecorder r (initial t))
    = service_input.Returned rw /\
    response_of rw
    = (422%Z,
       encoded (json_Marshal_ErrorResponse w
                  {| gateway_types.Message := "invalid zipcode" |})) /\
    http.Sent rw = [("Content-Type", "application/json")] /\
    sent_by (service_input.handleCEPRequest tr w http.NewRecorder r) t = [].
Proof.
  intros H. unfold sent_by. gateway_cases.
  all: cbn [fst snd] in H.
  all: try (destruct H as [H|H]; [congruence | rewrite H in *; discriminate]).
  all: eexists; split; [reflexivity|].
  all: destruct (gateway_error_written http.StatusUnprocessableEntity
                   (json_Marshal_ErrorResponse w
                      {| gateway_types.Message := "invalid zipcode" |}))
         as [-> ->].
  all: repeat split.
Qed.

(** A body that is not JSON, in a world without any configuration. *)
Lemma handleCEPRequest_rejects_at_the_edge_witness :
  exists rw,
    fst (service_input.handleCEPRequest trace.Recording
           (table_world [] [] scans [] []) http.NewRecorder
           (post_request [] "not json") (initial []))
    = service_input.Returned rw /\
    response_of rw
    = (422%Z, "{" ++ quoted "message" ++ ":"
                  ++ quoted "invalid zipcode" ++ "}" ++ newline) /\
    http.Sent rw = [("Content-Type", "application/json")] /\
    sent_by (service_input.handleCEPRequest trace.Recording
               (table_world [] [] scans [] []) http.NewRecorder
               (post_request [] "not json")) [] = [].
Proof.
  apply (handleCEPRequest_rejects_at_the_edge trace.Recording
           (table_world [] [] scans [] []) (post_request [] "not json") []).
  left. discriminate.
Defined.

(** X9.  Whatever the gateway sends is one GET, to the orchestrator's address
    with the postal code without its hyphens and spaces, and it is sent only
    for a postal code that the gateway accepted. *)
Theorem handleCEPRequest_forwards_once tr w r t rq :
  In rq (sent_by (service_input.handleCEPRequest tr w http.NewRecorder r) t) ->
  sent_by (service_input.handleCEPRequest tr w http.NewRecorder r) t = [rq] /\
  http.Method rq = "GET" /\
  http.URL rq
  = forward_url w
      (gateway_types.CEP
         (fst (service_input.Decode_CEPRequest w (http.InBody r)
                 {| gateway_types.CEP := "" |}))) /\
  service_input.validateCEP
    (gateway_types.CEP
       (fst (service_input.Decode_CEPRequest w (http.InBody r)
               {| gateway_types.CEP := "" |}))) = true.
Proof.
  unfold sent_by, forward_url. gateway_cases.
  all: cbn [outbound app In].
  all: intros Hin; try contradiction.
  all: destruct Hin as [<-|[]].
  all: cbn [http.Method http.URL fst].
  all: repeat split; try reflexivity.
  all: match goal with
       | H : negb ?b = false |- ?b = true => now destruct b
       end.
Qed.

Lemma handleCEPRequest_forwards_once_witness :
  sent_by (service_input.handleCEPRequest trace.Recording
             (gateway_world (response 200 "")) http.NewRecorder
             (post_request [] cep_json)) []
  = [{| http.Method := "GET"; http.URL := forwarded_url;
        http.ReqHeader := [("traceparent", "3")] |}].
Proof.
  apply (handleCEPRequest_forwards_once trace.Recording
           (gateway_world (response 200 "")) (post_request [] cep_json) []).
  left. reflexivity.
Defined.



(** X11.  When the orchestrator's address is not configured, an accepted postal
    code ends the process: [log.Fatal] is reached, nothing is written to the
    client and nothing is sent. *)
Theorem handleCEPRequest_exits_without_address tr w r t req :
  service_input.Decode_CEPRequest w (http.InBody r)
    {| gateway_types.CEP := "" |} = (req, None) ->
  service_input.validateCEP (gateway_types.CEP req) = true ->
  os_Getenv w "SERVICE_B_URL" = "" ->
  fst (service_input.handleCEPRequest tr w http.NewRecorder r (initial t))
  = service_input.Exited /\
  events (snd (service_input.handleCEPRequest tr w http.NewRecorder r
                 (initial t)))
  = [LogFatal "SERVICE_B_URL environment variable not set"].
Proof.
  intros Hdec Hvalid Henv.
  unfold service_input.handleCEPRequest. run_monad.
  cbn [initial tracing events].
  destruct (trace.Tracer_Start tr (http.Context r) "validate-cep" t)
    as [[ctx span] t1].
  rewrite Hdec. run_monad. rewrite Hvalid. cbn [negb]. run_monad.
  cbn [tracing events].
  match goal with
  | |- context [trace.Tracer_Start tr ctx "call-service-b" ?t2] =>
      destruct (trace.Tracer_Start tr ctx "call-service-b" t2)
        as [[ctx' spanB] t3]
  end.
  rewrite Henv. cbn. split; reflexivity.
Qed.

Lemma handleCEPRequest_exits_without_address_witness :
  fst (service_input.handleCEPRequest trace.Recording
         (table_world [] [] scans [] []) http.NewRecorder
         (post_request [] cep_json) (initial []))
  = service_input.Exited /\
  events (snd (service_input.handleCEPRequest trace.Recording
                 (table_world [] [] scans [] []) http.NewRecorder
                 (post_request [] cep_json) (initial [])))
  = [LogFatal "SERVICE_B_URL environment variable not set"].
Proof.
  apply (handleCEPRequest_exits_without_address trace.Recording
           (table_world [] [] scans [] []) (post_request [] cep_json) []
           {| gateway_types.CEP := "01001-000" |}); reflexivity.
Defined.

(** The no-op run of the gateway on the same body. *)
Lemma handleCEPRequest_any_tracing tr w rw r st :
  (forall rq rq',
      http.Method rq = http.Method rq' -> http.URL rq = http.URL rq' ->
      RoundTrip w rq = RoundTrip w rq') ->
  fst (service_input.handleCEPRequest tr w rw r st)
  = fst (service_input.handleCEPRequest trace.Noop w rw
           {| http.Context := tt; http.Query := []; http.InHeader := [];
              http.InBody := http.InBody r |} (initial tt)).
Proof.
  intros Hnet. cbn [http.InBody http.Context].
  unfold service_input.handleCEPRequest, service_input.io_ReadAll.
  run_monad. unfold http_NewRequest.
  cbn [initial tracing events http.InBody http.Context trace.Noop
       trace.Tracer_Start trace.Propagator_Inject trace.SetAttributes
       trace.Span_End].
  repeat (first [ break_match
                | progress cbn [service_input.returning] ];
          run_monad;
          cbn [fst snd events tracing initial trace.Noop
               trace.Tracer_Start trace.Propagator_Inject trace.SetAttributes
               trace.Span_End http.Method http.URL http.ReqHeader]).
  all: cbn [http.Method http.URL http.ReqHeader] in *.
  all: try reflexivity.
  all: try congruence.
  all: repeat match goal with
         | H1 : RoundTrip _ ?x = _, H2 : RoundTrip _ ?y = _ |- _ =>
             tryif constr_eq x y then fail
             else (rewrite (Hnet x y eq_refl eq_refl) in H1;
                   rewrite H1 in H2; clear H1)
         end.
  all: try congruence.
  all: match goal with
       | H : OK _ = OK _ |- _ => injection H as ->
       end.
  all: try reflexivity; congruence.
Qed.

(** X12.  Unlike the orchestrator, the gateway hands tracing data to the network:
    the propagator writes headers into the forwarded request.  When the
    answer of the network does not depend on the headers of a request, the
    outcome of the gateway does not depend on the tracer, the context or the
    state of the tracing backend. *)
Theorem handleCEPRequest_tracing_only_in_headers tr1 tr2 w rw r1 r2 st1 st2 :
  (forall rq rq',
      http.Method rq = http.Method rq' -> http.URL rq = http.URL rq' ->
      RoundTrip w rq = RoundTrip w rq') ->
  http.InBody r1 = http.InBody r2 ->
  fst (service_input.handleCEPRequest tr1 w rw r1 st1)
  = fst (service_input.handleCEPRequest tr2 w rw r2 st2).
Proof.
  intros Hnet Hbody.
  rewrite (handleCEPRequest_any_tracing tr1 w rw r1 st1 Hnet).
  rewrite (handleCEPRequest_any_tracing tr2 w rw r2 st2 Hnet).
  now rewrite Hbody.
Qed.

Lemma handleCEPRequest_tracing_only_in_headers_witness :
  fst (service_input.handleCEPRequest trace.Recording
         (gateway_world (response 404 "can not find zipcode"))
         http.NewRecorder (post_request [] cep_json) (initial []))
  = fst (service_input.handleCEPRequest trace.Noop
           (gateway_world (response 404 "can not find zipcode"))
           http.NewRecorder (post_request tt cep_json) (initial tt)).
Proof.
  apply handleCEPRequest_tracing_only_in_headers.
  - intros rq rq' _ Hurl. cbn [RoundTrip gateway_world table_world].
    now rewrite Hurl.
  - reflexivity.
Defined.

(** * The gateway in front of the orchestrator *)

Lemma string_append_assoc (a b c : string) : (a ++ b) ++ c = a ++ (b ++ c).
Proof. induction a as [|x a IH]; cbn; [reflexivity | now rewrite IH]. Qed.

Lemma strip_prefix_append p s : strip_prefix p (p ++ s) = Some s.
Proof.
  induction p as [|a p IH]; cbn; [reflexivity|].
  now rewrite Ascii.eqb_refl.
Qed.

Lemma eight_digits_all_alnum s : eight_ascii_digits s -> all_alnum s = true.
Proof.
  intros [_ Hd]. induction s as [|c s IH]; [reflexivity|].
  cbn [all_alnum].
  assert (Hc : is_ascii_digit c = true).
  { apply is_ascii_digit_spec. apply Hd. left. reflexivity. }
  rewrite Hc, orb_true_r. cbn [andb].
  apply IH. intros c' Hin. apply Hd. right. exact Hin.
Qed.

Local Transparent fmt.Sprintf.

Lemma forward_url_append w cep :
  forward_url w cep
  = (os_Getenv w "SERVICE_B_URL" ++ "/temperature?cep=")
      ++ strings.ReplaceAll (strings.ReplaceAll cep "-" "") " " "".
Proof.
  unfold forward_url. cbn [fmt.Sprintf fmt.render Ascii.eqb Bool.eqb orb].
  rewrite append_empty_r.
  now rewrite string_append_assoc.
Qed.

Local Opaque fmt.Sprintf.

Lemma four_classes_valid valid geocode weather encode cep :
  valid cep = true ->
  In (fst (four_classes valid geocode weather encode cep))
    [200%Z; 404%Z; 500%Z].
Proof.
  intros Hvalid. unfold four_classes. rewrite Hvalid. cbn [negb].
  destruct (geocode cep) as [city [e|]]; [right; left; reflexivity|].
  destruct (weather city) as [celsius [e|]];
    [right; right; left; reflexivity | left; reflexivity].
Qed.

(** X13.  End to end.  When the network of the gateway is the orchestrator, a
    posted postal code that the gateway accepts comes back with exactly the
    response that the orchestrator computes for the code without its
    hyphens and spaces; the orchestrator never rejects what the gateway
    forwards, so the status is 200, 404 or 500, never 422. *)
Theorem gateway_then_orchestrator tr gw w r t req :
  service_input.Decode_CEPRequest gw (http.InBody r)
    {| gateway_types.CEP := "" |} = (req, None) ->
  service_input.validateCEP (gateway_types.CEP req) = true ->
  os_Getenv gw "SERVICE_B_URL" <> "" ->
  url_Parse_err gw (forward_url gw (gateway_types.CEP req)) = None ->
  (forall rq,
      RoundTrip gw rq = orchestrator_at (os_Getenv gw "SERVICE_B_URL") w rq) ->
  exists rw,
    fst (service_input.handleCEPRequest tr gw http.NewRecorder r (initial t))
    = service_input.Returned rw /\
    response_of rw
    = four_classes utils.IsValidCEP (geocode_traced w) (weather_traced w)
        (json_Marshal_Temperature w)
        (without_separators (gateway_types.CEP req)) /\
    In (fst (response_of rw)) [200%Z; 404%Z; 500%Z].
Proof.
  intros Hdec Hvalid Hurl Hparse Hnet.
  assert (Hclean : utils.IsValidCEP (without_separators (gateway_types.CEP req))
                   = true).
  { rewrite <- Hvalid. unfold service_input.validateCEP, utils.IsValidCEP.
    now rewrite strip_separators. }
  apply String.eqb_neq in Hurl.
  unfold service_input.handleCEPRequest. run_monad.
  cbn [initial tracing events].
  destruct (trace.Tracer_Start tr (http.Context r) "validate-cep" t)
    as [[ctx span] t1].
  rewrite Hdec. run_monad. rewrite Hvalid. cbn [negb]. run_monad.
  cbn [tracing events].
  match goal with
  | |- context [trace.Tracer_Start tr ctx "call-service-b" ?t2] =>
      destruct (trace.Tracer_Start tr ctx "call-service-b" t2)
        as [[ctx' spanB] t3]
  end.
  rewrite Hurl. run_monad. unfold http_NewRequest.
  fold (forward_url gw (gateway_types.CEP req)). rewrite Hparse.
  run_monad. cbn [http.Method http.URL http.ReqHeader].
  rewrite Hnet. unfold orchestrator_at. cbn [http.URL].
  rewrite forward_url_append, strip_prefix_append, strip_separators.
  rewrite (eight_digits_all_alnum _ (proj1 (IsValidCEP_true_iff _) Hclean)).
  unfold service_input.io_ReadAll, as_response.
  cbn [http.Body http.data http.fault http.StatusCode
       service_input.returning].
  run_monad. cbn [fst].
  eexists. split; [reflexivity|].
  match goal with
  | |- response_of ?x = _ /\ _ =>
      assert (Hresp : response_of x
                      = four_classes utils.IsValidCEP (geocode_traced w)
                          (weather_traced w) (json_Marshal_Temperature w)
                          (without_separators (gateway_types.CEP req)))
  end.
  { pose proof (Traced_TemperatureHandler_response trace.Noop w
                  (query_request
                     [("cep", without_separators (gateway_types.CEP req))])
                  (initial tt)) as Hr.
    change (http.Query_Get (query_request [("cep", ?c)]) "cep") with c in Hr.
    rewrite <- Hr.
    unfold response_of, http.Code, http.Write, http.WriteHeader,
      http.Header_Set_w, http.NewRecorder.
    cbn [http.WroteHeader http.Written http.Pending http.Sent].
    destruct (http.WroteHeader _); reflexivity. }
  split; [exact Hresp|].
  rewrite Hresp. apply four_classes_valid. exact Hclean.
Qed.

(** The end-to-end example of the specification through both services: the
    body [{"cep": "01001-000"}], São Paulo, 25.5 degrees. *)
Lemma gateway_then_orchestrator_witness :
  exists rw,
    fst (service_input.handleCEPRequest trace.Recording
           (gateway_in_front "http://localhost:8081" happy_world)
           http.NewRecorder (post_request [] cep_json) (initial []))
    = service_input.Returned rw /\
    response_of rw = (200%Z, report_25_5_json ++ newline) /\
    In (fst (response_of rw)) [200%Z; 404%Z; 500%Z].
Proof.
  apply (gateway_then_orchestrator trace.Recording
           (gateway_in_front "http://localhost:8081" happy_world)
           happy_world (post_request [] cep_json) []
           {| gateway_types.CEP := "01001-000" |}).
  - reflexivity.
  - reflexivity.
  - discriminate.
  - reflexivity.
  - reflexivity.
Defined.

(** * What the handlers and clients tell the tracer *)

(** The operations of the recording tracer, one step each; the name of the
    tracer stays folded where it is an argument of a client. *)
Ltac recording_ops :=
  repeat match goal with
    | |- context [trace.SetAttributes trace.Recording ?s ?kvs ?t] =>
        change (trace.SetAttributes trace.Recording s kvs t)
          with (t ++ [trace.OpAttrs s kvs])%list
    | |- context [trace.RecordError trace.Recording ?s ?e ?t] =>
        change (trace.RecordError trace.Recording s e t)
          with (t ++ [trace.OpError s e])%list
    | |- context [trace.SetStatus trace.Recording ?s ?c ?d ?t] =>
        change (trace.SetStatus trace.Recording s c d t)
          with (t ++ [trace.OpStatus s c d])%list
    | |- context [trace.Span_End trace.Recording ?s ?t] =>
        change (trace.Span_End trace.Recording s t)
          with (t ++ [trace.OpEnd s])%list
    end.

Ltac recording :=
  repeat first
    [ progress recording_ops
    | match goal with
      | |- context [trace.Tracer_Start trace.Recording ?c ?n ?t] =>
          change (trace.Tracer_Start trace.Recording c n t)
            with ((List.length t :: c, List.length t),
                  (t ++ [trace.OpStart (List.length t) n])%list)
      end ].

Ltac run_recording :=
  run_monad; recording;
  repeat (break_match; run_monad; recording;
          cbn [fst snd events tracing initial]).

Lemma Recording_GetCityFromCEP_run w ctx cep s st :
  utils.Traced.GetCityFromCEP trace.Recording w ctx cep s st
  = (geocode_traced w cep,
     {| tracing := (tracing st ++ geocode_ops w cep s)%list;
        events := (events st ++ geocode_traced_events w cep)%list |}).
Proof.
  unfold geocode_traced, geocode_traced_events, geocode_ops,
    utils.Traced.GetCityFromCEP.
  destruct st as [j evs]. run_recording.
  all: cbn [app]; rewrite <- ?app_assoc, ?app_nil_r; reflexivity.
Qed.

Lemma Recording_GetTemperature_run w ctx city s st :
  utils.Traced.GetTemperature trace.Recording w ctx city s st
  = (weather_traced w city,
     {| tracing := (tracing st ++ weather_ops w city s)%list;
        events := (events st ++ weather_traced_events w city)%list |}).
Proof.
  unfold weather_traced, weather_traced_events, weather_ops,
    utils.Traced.GetTemperature.
  destruct st as [j evs]. run_recording.
  all: cbn [app]; rewrite <- ?app_assoc, ?app_nil_r; reflexivity.
Qed.

Lemma geocode_ops_shape w cep s :
  Forall (fun o => op_span o = s) (geocode_ops w cep s) /\
  started (geocode_ops w cep s) = [] /\
  ended (geocode_ops w cep s) = [] /\
  match snd (geocode_traced w cep) with
  | Some e =>
      recorded s (geocode_ops w cep s) = [e] /\
      exists d, statuses s (geocode_ops w cep s) = [(trace.Error, d)]
  | None =>
      recorded s (geocode_ops w cep s) = [] /\
      statuses s (geocode_ops w cep s)
      = [(trace.Ok, "city successfully retrieved from ViaCEP")]
  end.
Proof.
  unfold geocode_ops, geocode_traced, utils.Traced.GetCityFromCEP.
  run_recording.
  all: cbn [app started ended recorded statuses snd fst];
    rewrite ?Nat.eqb_refl.
  all: split; [repeat constructor|].
  all: repeat split; eauto.
Qed.

Lemma weather_ops_shape w city s :
  Forall (fun o => op_span o = s) (weather_ops w city s) /\
  started (weather_ops w city s) = [] /\
  ended (weather_ops w city s) = [] /\
  match snd (weather_traced w city) with
  | Some e =>
      (exists e', recorded s (weather_ops w city s) = [e']) /\
      exists d, statuses s (weather_ops w city s) = [(trace.Error, d)]
  | None => weather_ops w city s = []
  end.
Proof.
  unfold weather_ops, weather_traced, utils.Traced.GetTemperature.
  run_recording.
  all: cbn [app started ended recorded statuses snd fst];
    rewrite ?Nat.eqb_refl.
  all: split; [repeat constructor|].
  all: repeat split; eauto.
Qed.

(** X14.  Each traced client writes on the span it was handed and on no other; it
    starts and ends no span; it records an error exactly once when it fails
    and never when it succeeds, and then sets the status [Error] once.  On
    success the geocode client sets the status [Ok]; the weather client
    tells the tracer nothing and leaves the status to its caller. *)
Theorem traced_clients_record_once w ctx s st :
  (forall cep,
      exists ops,
        tracing (snd (utils.Traced.GetCityFromCEP trace.Recording w ctx cep s
                        st))
        = (tracing st ++ ops)%list /\
        Forall (fun o => op_span o = s) ops /\
        started ops = [] /\ ended ops = [] /\
        match snd (fst (utils.Traced.GetCityFromCEP trace.Recording w ctx cep
                          s st)) with
        | Some e =>
            recorded s ops = [e] /\
            exists d, statuses s ops = [(trace.Error, d)]
        | None =>
            recorded s ops = [] /\
            statuses s ops
            = [(trace.Ok, "city successfully retrieved from ViaCEP")]
        end) /\
  (forall city,
      exists ops,
        tracing (snd (utils.Traced.GetTemperature trace.Recording w ctx city s
                        st))
        = (tracing st ++ ops)%list /\
        Forall (fun o => op_span o = s) ops /\
        started ops = [] /\ ended ops = [] /\
        match snd (fst (utils.Traced.GetTemperature trace.Recording w ctx city
                          s st)) with
        | Some e =>
            (exists e', recorded s ops = [e']) /\
            exists d, statuses s ops = [(trace.Error, d)]
        | None => ops = []
        end).
Proof.
  split.
  - intros cep. exists (geocode_ops w cep s).
    rewrite Recording_GetCityFromCEP_run. cbn [fst snd tracing].
    split; [reflexivity|]. apply geocode_ops_shape.
  - intros city. exists (weather_ops w city s).
    rewrite Recording_GetTemperature_run. cbn [fst snd tracing].
    split; [reflexivity|]. apply weather_ops_shape.
Qed.

Lemma started_app j1 j2 : started (j1 ++ j2) = (started j1 ++ started j2)%list.
Proof.
  induction j1 as [|[]] ; cbn [app started]; rewrite ?IHj1; reflexivity.
Qed.

Lemma ended_app j1 j2 : ended (j1 ++ j2) = (ended j1 ++ ended j2)%list.
Proof.
  induction j1 as [|[]] ; cbn [app ended]; rewrite ?IHj1; reflexivity.
Qed.

Lemma statuses_app s j1 j2 :
  statuses s (j1 ++ j2) = (statuses s j1 ++ statuses s j2)%list.
Proof.
  induction j1 as [|[]] ; cbn [app statuses]; rewrite ?IHj1; try reflexivity.
  destruct (Nat.eqb id s); reflexivity.
Qed.

Lemma recorded_app s j1 j2 :
  recorded s (j1 ++ j2) = (recorded s j1 ++ recorded s j2)%list.
Proof.
  induction j1 as [|[]] ; cbn [app recorded]; rewrite ?IHj1; try reflexivity.
  destruct (Nat.eqb id s); reflexivity.
Qed.

(** Operations on one span say nothing about another. *)
Lemma other_span s s' ops :
  Forall (fun o => op_span o = s) ops -> s <> s' ->
  statuses s' ops = [] /\ recorded s' ops = [].
Proof.
  intros Hall Hne. induction Hall as [|o ops Ho _ [IH1 IH2]]; [split; reflexivity|].
  apply Nat.eqb_neq in Hne.
  destruct o; cbn [op_span] in Ho; subst; cbn [statuses recorded];
    rewrite ?Hne; split; assumption.
Qed.

(** The recording tracer in a handler: a name of its own for the identifier
    of each span that is started. *)
Ltac recording_spans :=
  repeat first
    [ progress (recording_ops; cbn [initial tracing events fst snd])
    | match goal with
      | |- context [trace.Tracer_Start trace.Recording ?c ?n ?t] =>
          let s := fresh "s" in let E := fresh "Hs" in
          change (trace.Tracer_Start trace.Recording c n t)
            with ((List.length t :: c, List.length t),
                  (t ++ [trace.OpStart (List.length t) n])%list);
          remember (List.length t) as s eqn:E;
          rewrite ?length_app in E; cbn [List.length] in E
      end ].

Ltac handler_journal :=
  run_monad; recording_spans; cbn [initial tracing events fst snd].

(** What remains once the handler has run: the facts on the operations of
    the clients, then the journal read entry by entry. *)
Ltac client_ops :=
  repeat match goal with
    | |- context [geocode_ops ?w ?c ?s] =>
        let g := fresh "g" in
        destruct (geocode_ops_shape w c s) as (? & ? & ? & _);
        set (g := geocode_ops w c s) in *; clearbody g
    | |- context [weather_ops ?w ?c ?s] =>
        let g := fresh "g" in
        destruct (weather_ops_shape w c s) as (? & ? & ? & _);
        set (g := weather_ops w c s) in *; clearbody g
    end.

Ltac other_spans root :=
  repeat match goal with
    | H : Forall (fun o => op_span o = ?s) ?g |- _ =>
        let Hne := fresh "Hne" in
        let H1 := fresh "Hst" in let H2 := fresh "Hrec" in
        assert (s <> root) as Hne by lia;
        destruct (other_span s root g H Hne) as [H1 H2];
        clear H
    end.

Ltac read_journal :=
  repeat (cbn [started ended statuses recorded app];
          rewrite ?started_app, ?ended_app, ?statuses_app, ?recorded_app,
            ?Nat.eqb_refl);
  repeat match goal with
    | |- context [Nat.eqb ?a ?b] =>
        replace (Nat.eqb a b) with false
          by (symmetry; apply Nat.eqb_neq; lia)
    end;
  repeat match goal with
    | H : _ = [] |- _ => rewrite H
    end;
  cbn [app].

Ltac handler_spans root :=
  rewrite <- !app_assoc; cbn [app]; client_ops; other_spans root;
  eexists; eexists; split; [reflexivity|];
  read_journal;
  split; [reflexivity|]; split; [reflexivity|];
  split; [repeat constructor; cbn [In]; intuition lia|];
  split; [reflexivity|].

(** X15.  Under the recording tracer the orchestrator's handler brackets its
    spans: the request span is started first and ended last, every span it
    starts in between is ended, each exactly once and in the order it was
    started, and all have identifiers of their own.  No error is recorded on
    the request span, and it gets exactly one status: [Ok] when the response
    is 200, otherwise [Error] with the body of the response as its
    description. *)
Theorem TemperatureHandler_spans_bracketed w r st :
  exists ops inner,
    tracing (snd (handler.Traced.TemperatureHandler trace.Recording w
                    http.NewRecorder r st))
    = (tracing st ++ ops)%list /\
    started ops = List.length (tracing st) :: inner /\
    ended ops = (inner ++ [List.length (tracing st)])%list /\
    NoDup (List.length (tracing st) :: inner) /\
    recorded (List.length (tracing st)) ops = [] /\
    statuses (List.length (tracing st)) ops
    = [if (fst (response_of
                  (fst (handler.Traced.TemperatureHandler trace.Recording w
                          http.NewRecorder r st))) =? 200)%Z
       then (trace.Ok, "request processed successfully")
       else (trace.Error,
             snd (response_of
                    (fst (handler.Traced.TemperatureHandler trace.Recording w
                            http.NewRecorder r st))))].
Proof.
  destruct st as [j evs]. cbn [tracing].
  unfold handler.Traced.TemperatureHandler.
  handler_journal.
  destruct (utils.IsValidCEP (http.Query_Get r "cep")); cbn [negb];
  handler_journal.
  - rewrite Recording_GetCityFromCEP_run.
    destruct (geocode_traced w (http.Query_Get r "cep")) as [city [e|]] eqn:Hg; handler_journal.
    + handler_spans s. reflexivity.
    + rewrite Recording_GetTemperature_run.
      destruct (weather_traced w city) as [c [e|]] eqn:Hw; handler_journal.
      * handler_spans s. reflexivity.
      * handler_spans s. rewrite response_of_Encode_to. reflexivity.
  - handler_spans s. reflexivity.
Qed.

(** * What the gateway tells the tracer *)

Ltac gateway_journal :=
  unfold service_input.handleCEPRequest, service_input.io_ReadAll;
  handler_journal; unfold http_NewRequest;
  repeat (first [ break_match
                | progress cbn [service_input.returning] ];
          handler_journal).

(** X16.  The gateway never sets a status and never records an error, on any
    span and whatever the outcome, its 500 responses included.  A request
    rejected at the edge starts the span [validate-cep] alone and ends it
    once.  An accepted request ends [validate-cep], starts [call-service-b]
    with another identifier and, on returning, ends [call-service-b] and
    then [validate-cep] a second time; when the address of the orchestrator
    is not configured the process exits with [call-service-b] never ended. *)
Theorem handleCEPRequest_spans w rw r st :
  exists ops,
    tracing (snd (service_input.handleCEPRequest trace.Recording w rw r st))
    = (tracing st ++ ops)%list /\
    (forall s, statuses s ops = [] /\ recorded s ops = []) /\
    match service_input.Decode_CEPRequest w (http.InBody r)
            {| gateway_types.CEP := "" |} with
    | (req, None) =>
        if service_input.validateCEP (gateway_types.CEP req) then
          exists s, s <> List.length (tracing st) /\
            started ops = [List.length (tracing st); s] /\
            ended ops
            = List.length (tracing st)
              :: (if String.eqb (os_Getenv w "SERVICE_B_URL") ""
                  then [] else [s; List.length (tracing st)])
        else
          started ops = [List.length (tracing st)] /\
          ended ops = [List.length (tracing st)]
    | (_, Some _) =>
        started ops = [List.length (tracing st)] /\
        ended ops = [List.length (tracing st)]
    end.
Proof.
  destruct st as [j evs]. cbn [tracing].
  gateway_journal.
  all: try match goal with
       | H : negb _ = _ |- _ => discriminate H
       end.
  all: rewrite <- ?app_assoc; cbn [app].
  all: eexists; split; [reflexivity|].
  all: split; [intros; split; reflexivity|].
  all: first [ split; reflexivity
             | eexists; split; [|split; reflexivity]; lia ].
Qed.

(** * The testable doubles and the handler with injected dependencies *)

(** X17.  Given the default client, the double of the geocode client is the
    geocode client of viacep.go: same result, same events, from every
    state. *)
Theorem GetCityFromCEPWithClient_DefaultClient {T} w cep (st : St T) :
  utils_test.GetCityFromCEPWithClient w cep (utils_test.DefaultClient w) st
  = utils.Plain.GetCityFromCEP w cep st.
Proof. reflexivity. Qed.

(** X18.  The double of the weather client does not escape the city.  Given the
    default client it agrees with the weather client of production, in what
    it returns and in what it sends, on every city that escaping leaves
    unchanged. *)
Theorem GetTemperatureWithClient_agrees_on_plain_cities {T} w city
        (st : St T) :
  url.QueryEscape city = city ->
  fst (utils_test.GetTemperatureWithClient w city
         (utils_test.DefaultClient w) st)
  = fst (utils.Plain.GetTemperature w city st) /\
  outbound (events (snd (utils_test.GetTemperatureWithClient w city
                           (utils_test.DefaultClient w) st)))
  = outbound (events (snd (utils.Plain.GetTemperature w city st))).
Proof.
  intros Hesc. destruct st as [t evs].
  unfold utils_test.GetTemperatureWithClient, utils.Plain.GetTemperature,
    utils_test.DefaultClient, utils.UrlWeatherAPI.
  cbn [utils_test.Get]. rewrite Hesc.
  run_monad. unfold http_NewRequest.
  run_cases.
  all: cbn [fst snd events]; rewrite ?outbound_app; cbn [outbound app];
    rewrite ?app_nil_r; split; reflexivity.
Qed.

Lemma GetTemperatureWithClient_agrees_on_plain_cities_witness :
  url.QueryEscape "Berlin" = "Berlin" /\
  fst (utils_test.GetTemperatureWithClient happy_world "Berlin"
         (utils_test.DefaultClient happy_world) (initial tt))
  = fst (utils.Plain.GetTemperature happy_world "Berlin" (initial tt)).
Proof.
  split; [reflexivity|].
  apply (GetTemperatureWithClient_agrees_on_plain_cities happy_world "Berlin"
           (initial tt)).
  reflexivity.
Defined.

(** X19.  With a credential, the double of the weather client asks for the URL
    that carries the city as it was given, where the client of production
    asks for the one that carries the escaped city; each sends that one
    request. *)
Theorem GetTemperatureWithClient_sends_raw_city {T} w city (st : St T) :
  os_Getenv w "APIKeyWeather" <> "" ->
  url_Parse_err w (weather_url_raw w city) = None ->
  url_Parse_err w (weather_url w city) = None ->
  outbound (events (snd (utils_test.GetTemperatureWithClient w city
                           (utils_test.DefaultClient w) st)))
  = (outbound (events st)
     ++ [{| http.Method := "GET"; http.URL := weather_url_raw w city;
            http.ReqHeader := [] |}])%list /\
  outbound (events (snd (utils.Plain.GetTemperature w city st)))
  = (outbound (events st) ++ [weather_request w city])%list.
Proof.
  intros Hkey Hraw Hesc. apply String.eqb_neq in Hkey.
  destruct st as [t evs].
  unfold weather_request, weather_url, weather_url_raw in *.
  unfold utils_test.GetTemperatureWithClient, utils.Plain.GetTemperature,
    utils_test.DefaultClient.
  cbn [utils_test.Get]. rewrite Hkey.
  change "https://api.weatherapi.com/v1/current.json?key=%s&q=%s"
    with utils.UrlWeatherAPI.
  run_monad. unfold http_NewRequest. rewrite Hraw, Hesc.
  run_cases.
  all: cbn [fst snd events]; rewrite ?outbound_app; cbn [outbound app];
    rewrite ?app_nil_r; split; reflexivity.
Qed.

Lemma GetTemperatureWithClient_sends_raw_city_witness :
  os_Getenv happy_world "APIKeyWeather" <> "" /\
  outbound (events (snd (utils_test.GetTemperatureWithClient happy_world
                           "Rio Branco"
                           (utils_test.DefaultClient happy_world)
                           (initial tt))))
  = (outbound (events (initial tt))
     ++ [{| http.Method := "GET";
            http.URL := weather_url_raw happy_world "Rio Branco";
            http.ReqHeader := [] |}])%list.
Proof.
  split; [discriminate|].
  refine (proj1 (GetTemperatureWithClient_sends_raw_city happy_world
                   "Rio Branco" (initial tt) _ _ _));
    [discriminate | reflexivity | reflexivity].
Defined.

(** X20.  The handler with injected dependencies, given the functions of
    production, never panics and sends the requests the handler of
    production sends; its response is the one of the four classes, except
    that the report of a success never carries the city: the converter
    leaves it empty and nothing sets it. *)
Theorem ServeHTTP_production_drops_city {T Ctx} w
        (r : http.ServerRequest Ctx) (st : St T) :
  exists rw,
    fst (handler_test.ServeHTTP w (production_deps w) http.NewRecorder r st)
    = handler_test.Returned rw /\
    response_of rw
    = four_classes utils.IsValidCEP (geocode_plain w) (weather_plain w)
        (fun temps => json_Marshal_Temperature w (handler.set_City temps ""))
        (http.Query_Get r "cep") /\
    outbound (events (snd (handler_test.ServeHTTP w (production_deps w)
                             http.NewRecorder r st)))
    = outbound (events (snd (handler.Plain.TemperatureHandler w
                               http.NewRecorder r st))).
Proof.
  unfold four_classes, handler_test.ServeHTTP, production_deps,
    handler.Plain.TemperatureHandler.
  cbn [handler_test.CEPValidator handler_test.ViaCEPClient
       handler_test.WeatherAPIClient handler_test.TempConverter].
  destruct st as [t evs].
  handler_cases.
  all: eexists; split; [reflexivity|].
  all: split; [first [reflexivity | apply response_of_Encode_to]|].
  all: cbn [events]; rewrite ?outbound_app; cbn [outbound app];
    rewrite ?app_nil_r; reflexivity.
Qed.
